(** * sync_wiki.py: the path mapping, link rewriting and sync engine of
    [docs-site/scripts/sync_wiki.py], as a shallow embedding.

    Python [str] values are modelled as [string] (8-bit characters; only
    the ASCII letters are cased).  The configuration, a JSON object read
    through [dict.get] with defaults, is a record whose optional keys are
    [option] fields.  Effects (logging, file reads and writes, subprocess
    calls) are recorded in a trace by a small writer/exception monad; the
    outside of the program (the file system, git, the clock) is a record
    of answers, [World].

    The methods of [WikiSync] keep their names and take [self] first.
    What they call in the Python library ([str], [re], [fnmatch],
    [pathlib]) is modelled in the modules [PyStr], [Fnmatch] and [PyPath],
    after CPython 3.11 on a POSIX system. *)

From Stdlib Require Import String Ascii List Bool Arith Lia ZArith DecimalString.
Import ListNotations.
Open Scope list_scope.
Open Scope string_scope.

(** ** Python string primitives *)

Module PyStr.

(** [s.startswith(p)] *)
Fixpoint startswith (s p : string) {struct p} : bool :=
  match p, s with
  | EmptyString, _ => true
  | String a p', String b s' => Ascii.eqb a b && startswith s' p'
  | String _ _, EmptyString => false
  end.

(** [s[n:]] *)
Fixpoint drop (n : nat) (s : string) : string :=
  match n, s with
  | O, _ => s
  | S k, String _ s' => drop k s'
  | S _, EmptyString => EmptyString
  end.

(** [s[:n]] *)
Fixpoint take (n : nat) (s : string) : string :=
  match n, s with
  | S k, String c s' => String c (take k s')
  | _, _ => EmptyString
  end.

(** [s.endswith(p)] *)
Definition endswith (s p : string) : bool :=
  (String.length p <=? String.length s)%nat
  && String.eqb (drop (String.length s - String.length p) s) p.

(** [s[:-n]] for [n > 0] *)
Definition drop_last (n : nat) (s : string) : string :=
  take (String.length s - n) s.

(** The scan of [s.replace(old, new)] for a non-empty [old]: occurrences
    are found left to right and do not overlap.  [skip] counts the
    characters of the occurrence just replaced that are still to be
    passed over. *)
Fixpoint replace_scan (old new : string) (skip : nat) (s : string) : string :=
  match s with
  | EmptyString => EmptyString
  | String c s' =>
      match skip with
      | S k => replace_scan old new k s'
      | O =>
          if startswith s old
          then new ++ replace_scan old new (String.length old - 1) s'
          else String c (replace_scan old new 0 s')
      end
  end.

(** [s.replace(old, new)] for the empty [old]: [new] is put before every
    character and at the end. *)
Fixpoint intersperse (new s : string) : string :=
  match s with
  | EmptyString => new
  | String c s' => new ++ String c (intersperse new s')
  end.

(** [s.replace(old, new)] *)
Definition replace (s old new : string) : string :=
  match old with
  | EmptyString => intersperse new s
  | String _ _ => replace_scan old new 0 s
  end.

(** [c in chars] *)
Fixpoint mem (c : ascii) (chars : string) : bool :=
  match chars with
  | EmptyString => false
  | String d r => Ascii.eqb c d || mem c r
  end.

(** [old in s] *)
Fixpoint contains (s old : string) : bool :=
  startswith s old
  || match s with
     | EmptyString => false
     | String _ s' => contains s' old
     end.

(** [s.lstrip(chars)]: removes every leading character that belongs to
    the set [chars]. *)
Fixpoint lstrip (s chars : string) : string :=
  match s with
  | EmptyString => EmptyString
  | String c s' => if mem c chars then lstrip s' chars else s
  end.

(** [s.removeprefix(p)]; the source does not call it, the statements
    about the [./] prefix do. *)
Definition removeprefix (s p : string) : string :=
  if startswith s p then drop (String.length p) s else s.

(** [s.removesuffix(p)]: strip one trailing [p]. *)
Definition removesuffix (s p : string) : string :=
  if endswith s p then drop_last (String.length p) s else s.

(** [sep.join(l)] *)
Fixpoint join (sep : string) (l : list string) : string :=
  match l with
  | [] => EmptyString
  | [x] => x
  | x :: r => x ++ sep ++ join sep r
  end.

(** [s.split(sep)] for a one-character separator: [cur] is the piece
    being read. *)
Fixpoint split_scan (sep : ascii) (cur : string) (s : string) : list string :=
  match s with
  | EmptyString => [cur]
  | String c s' =>
      if Ascii.eqb c sep then cur :: split_scan sep EmptyString s'
      else split_scan sep (cur ++ String c EmptyString) s'
  end.

Definition split (s : string) (sep : ascii) : list string :=
  split_scan sep EmptyString s.

Definition is_lower (c : ascii) : bool :=
  let n := nat_of_ascii c in ((97 <=? n) && (n <=? 122))%nat.

Definition is_upper (c : ascii) : bool :=
  let n := nat_of_ascii c in ((65 <=? n) && (n <=? 90))%nat.

Definition to_upper (c : ascii) : ascii :=
  if is_lower c then ascii_of_nat (nat_of_ascii c - 32) else c.

Definition to_lower (c : ascii) : ascii :=
  if is_upper c then ascii_of_nat (nat_of_ascii c + 32) else c.

(** [s.title()]: a cased character that follows an uncased one is put in
    upper case, every other cased character in lower case. *)
Fixpoint title_scan (previous_is_cased : bool) (s : string) : string :=
  match s with
  | EmptyString => EmptyString
  | String c s' =>
      if is_lower c || is_upper c
      then String (if previous_is_cased then to_lower c else to_upper c)
                  (title_scan true s')
      else String c (title_scan false s')
  end.

Definition title (s : string) : string := title_scan false s.

(** [s.strip()] is only tested for emptiness in the source:
    [not s.strip()] holds when every character is white space. *)
Definition is_space (c : ascii) : bool :=
  let n := nat_of_ascii c in
  (((9 <=? n) && (n <=? 13)) || ((28 <=? n) && (n <=? 32))
   || (n =? 133) || (n =? 160))%nat.

Fixpoint all_space (s : string) : bool :=
  match s with
  | EmptyString => true
  | String c s' => is_space c && all_space s'
  end.

(** Comparison of two strings by code point, as [<] on [str]. *)
Fixpoint ltb (a b : string) : bool :=
  match a, b with
  | EmptyString, EmptyString => false
  | EmptyString, String _ _ => true
  | String _ _, EmptyString => false
  | String x a', String y b' =>
      if (nat_of_ascii x <? nat_of_ascii y)%nat then true
      else if (nat_of_ascii y <? nat_of_ascii x)%nat then false
      else ltb a' b'
  end.

End PyStr.

(** ** Exceptions and results *)

Inductive exn :=
| ValueError (msg : string)
| KeyError (key : string)
| IndexError (msg : string)
| OSError (msg : string)
| CalledProcessError (args : list string) (returncode : Z).

Inductive result (A : Type) :=
| Ok (a : A)
| Raise (e : exn).
Arguments Ok {A} a.
Arguments Raise {A} e.

(** ** [fnmatch.fnmatchcase]: shell patterns on one string

    The pattern is read as [fnmatch.translate] reads it and matched
    against the whole string, without case folding. *)

Module Fnmatch.

(** A piece of a translated pattern.  [Set_ stuff] keeps the text
    between the brackets as [translate] reads it. *)
Inductive tok :=
| Star
| AnyChar
| Lit (c : ascii)
| Set_ (stuff : string).

(** The longest prefix of characters other than [stop], and the rest. *)
Fixpoint span_until (stop : ascii) (s : string) : string * string :=
  match s with
  | EmptyString => (EmptyString, EmptyString)
  | String c s' =>
      if Ascii.eqb c stop then (EmptyString, s)
      else let (a, b) := span_until stop s' in (String c a, b)
  end.

(** After a [[]: the search of the closing bracket.  A leading [!] and a
    [\]] right after it are part of the set. *)
Definition find_close (s : string) : option string :=
  let (bang, s1) :=
    match s with
    | String "!" r => ("!", r)
    | _ => (EmptyString, s)
    end in
  let (first, s2) :=
    match s1 with
    | String "]" r => ("]", r)
    | _ => (EmptyString, s1)
    end in
  let (body, s3) := span_until "]" s2 in
  match s3 with
  | String "]" _ => Some (bang ++ first ++ body)
  | _ => None
  end.

(** The loop of [translate] over the pattern; [skip] passes over a set
    that has been read. *)
Fixpoint tokens (skip : nat) (pat : string) : list tok :=
  match pat with
  | EmptyString => []
  | String c rest =>
      match skip with
      | S k => tokens k rest
      | O =>
          if Ascii.eqb c "*" then Star :: tokens 0 rest
          else if Ascii.eqb c "?" then AnyChar :: tokens 0 rest
          else if Ascii.eqb c "[" then
            match find_close rest with
            | Some stuff => Set_ stuff :: tokens (S (String.length stuff)) rest
            | None => Lit "[" :: tokens 0 rest
            end
          else Lit c :: tokens 0 rest
      end
  end.

(** The chunks of a set: the text is cut at every hyphen that makes a
    range.  The first hyphen is looked for from the second character
    (the third after [!]), the next one two characters after a range
    hyphen. *)
Fixpoint chunks_scan (wait : nat) (cur : string) (s : string) : list string :=
  match s with
  | EmptyString => [cur]
  | String c s' =>
      match wait with
      | O =>
          if Ascii.eqb c "-" then cur :: chunks_scan 2 EmptyString s'
          else chunks_scan 0 (cur ++ String c EmptyString) s'
      | S w => chunks_scan w (cur ++ String c EmptyString) s'
      end
  end.

(** An empty last chunk means a trailing hyphen, which is a member. *)
Fixpoint close_chunks (l : list string) : list string :=
  match l with
  | [a; EmptyString] => [a ++ "-"]
  | a :: r => a :: close_chunks r
  | [] => []
  end.

Definition first_char (s : string) : option ascii :=
  match s with String c _ => Some c | EmptyString => None end.

Fixpoint last_char (s : string) : option ascii :=
  match s with
  | EmptyString => None
  | String c EmptyString => Some c
  | String _ s' => last_char s'
  end.

(** "Remove empty ranges": from the right, a range whose ends are in
    decreasing order is dropped with both its ends. *)
Fixpoint remove_empty_ranges (chunks : list string) : list string :=
  match chunks with
  | [] => []
  | c :: rest =>
      match remove_empty_ranges rest with
      | [] => [c]
      | d :: rest' =>
          match last_char c, first_char d with
          | Some lo, Some hi =>
              if (nat_of_ascii hi <? nat_of_ascii lo)%nat
              then (PyStr.drop_last 1 c ++ PyStr.drop 1 d) :: rest'
              else c :: d :: rest'
          | _, _ => c :: d :: rest'
          end
      end
  end.

Definition set_chunks (stuff : string) : list string :=
  let wait := match stuff with String "!" _ => 2 | _ => 1 end in
  remove_empty_ranges (close_chunks (chunks_scan wait EmptyString stuff)).

(** Membership in the chunks joined by range hyphens. *)
Fixpoint in_chunks (c : ascii) (chunks : list string) : bool :=
  match chunks with
  | [] => false
  | a :: rest =>
      PyStr.mem c a
      || match rest with
         | b :: _ =>
             match last_char a, first_char b with
             | Some lo, Some hi =>
                 ((nat_of_ascii lo <=? nat_of_ascii c)
                  && (nat_of_ascii c <=? nat_of_ascii hi))%nat
             | _, _ => false
             end
         | [] => false
         end
      || in_chunks c rest
  end.

(** A set that starts with [!] after the empty ranges are removed is
    complemented. *)
Definition in_set (c : ascii) (stuff : string) : bool :=
  match set_chunks stuff with
  | String "!" a :: rest => negb (in_chunks c (a :: rest))
  | chunks => in_chunks c chunks
  end.

Definition tok_char (t : tok) (c : ascii) : bool :=
  match t with
  | Star => true
  | AnyChar => true
  | Lit d => Ascii.eqb c d
  | Set_ stuff => in_set c stuff
  end.

(** The whole of [s] against the translated pattern. *)
Fixpoint matches (toks : list tok) (s : string) : bool :=
  match toks with
  | [] => match s with EmptyString => true | _ => false end
  | Star :: r =>
      (fix star (s : string) : bool :=
         matches r s
         || match s with
            | EmptyString => false
            | String _ s' => star s'
            end) s
  | t :: r =>
      match s with
      | EmptyString => false
      | String c s' => tok_char t c && matches r s'
      end
  end.

Definition fnmatchcase (name pat : string) : bool :=
  matches (tokens 0 pat) name.

End Fnmatch.

(** ** [pathlib.PurePosixPath]

    Paths without drive.  [match_] is [PurePath.match]: the components of
    the pattern are matched from the right with [fnmatchcase]. *)

(** A path is its root (empty, [/] or [//]) and its components. *)
Record Path := mkPath {
  root : string;
  tail : list string
}.

Module PyPath.

(** The components kept when a string is parsed: neither empty nor [.] *)
Definition keep_part (x : string) : bool :=
  negb (String.eqb x EmptyString) && negb (String.eqb x ".").

(** [splitroot]: one leading slash, or three and more, give the root [/],
    exactly two give [//]. *)
Definition splitroot (s : string) : string * string :=
  match s with
  | String "/" _ =>
      let stripped := PyStr.lstrip s "/" in
      if (String.length s - String.length stripped =? 2)%nat
      then ("//", stripped) else ("/", stripped)
  | _ => (EmptyString, s)
  end.

(** [Path(s)] *)
Definition parse (s : string) : Path :=
  let (r, rel) := splitroot s in
  mkPath r (filter keep_part (PyStr.split rel "/")).

(** [str(p)] *)
Definition str (p : Path) : string :=
  match root p, tail p with
  | EmptyString, [] => "."
  | r, t => r ++ PyStr.join "/" t
  end.

(** [p / s] *)
Definition joinpath (p : Path) (s : string) : Path :=
  let q := parse s in
  match root q with
  | EmptyString => mkPath (root p) (tail p ++ tail q)%list
  | _ => q
  end.

(** [p.parent] *)
Definition parent (p : Path) : Path :=
  mkPath (root p) (removelast (tail p)).

(** [p.name] *)
Definition name (p : Path) : string :=
  last (tail p) EmptyString.

(** [s.rfind(".")], as the number of characters before the last dot. *)
Fixpoint rfind_dot (s : string) : option nat :=
  match s with
  | EmptyString => None
  | String c s' =>
      match rfind_dot s' with
      | Some i => Some (S i)
      | None => if Ascii.eqb c "." then Some 0 else None
      end
  end.

(** [p.stem]: the name without its last suffix; a leading or a trailing
    dot starts no suffix. *)
Definition stem (p : Path) : string :=
  let n := name p in
  match rfind_dot n with
  | Some i =>
      if ((0 <? i) && (i <? String.length n - 1))%nat then PyStr.take i n else n
  | None => n
  end.

(** [b] is a prefix of [a]: what is left of [a]. *)
Fixpoint strip_parts (a b : list string) : option (list string) :=
  match b, a with
  | [], _ => Some a
  | y :: b', x :: a' => if String.eqb x y then strip_parts a' b' else None
  | _ :: _, [] => None
  end.

(** The message of the error of [relative_to]. *)
Definition not_in_subpath (p other : Path) : string :=
  "'" ++ str p ++ "' is not in the subpath of '" ++ str other
  ++ "' OR one path is relative and the other is absolute.".

(** [p.relative_to(other)] *)
Definition relative_to (p other : Path) : result Path :=
  if String.eqb (root p) (root other) then
    match strip_parts (tail p) (tail other) with
    | Some rest => Ok (mkPath EmptyString rest)
    | None => Raise (ValueError (not_in_subpath p other))
    end
  else Raise (ValueError (not_in_subpath p other)).

(** [p.parts]: the root, when there is one, is the first part. *)
Definition parts (p : Path) : list string :=
  match root p with
  | EmptyString => tail p
  | r => r :: tail p
  end.

(** The [zip] of the reversed parts in [match]: it stops with the
    shorter list. *)
Fixpoint match_reversed (parts pat_parts : list string) : bool :=
  match parts, pat_parts with
  | part :: parts', pat :: pat_parts' =>
      Fnmatch.fnmatchcase part pat && match_reversed parts' pat_parts'
  | _, _ => true
  end.

(** [p.match(path_pattern)]: the pattern is parsed as a path and its
    components are matched one by one from the right; a pattern with a
    root has to match the whole path. *)
Definition match_ (p : Path) (path_pattern : string) : result bool :=
  let pat := parse path_pattern in
  match parts pat with
  | [] => Raise (ValueError "empty pattern")
  | pat_parts =>
      match root pat with
      | EmptyString =>
          if (List.length (parts p) <? List.length pat_parts)%nat then Ok false
          else Ok (match_reversed (rev (parts p)) (rev pat_parts))
      | r =>
          if negb (String.eqb r (root p)) then Ok false
          else if negb (List.length pat_parts =? List.length (parts p))%nat then Ok false
          else Ok (match_reversed (rev (parts p)) (rev (tl pat_parts)))
      end
  end.

(** [a < b] on paths: the parts are compared as sequences of strings. *)
Fixpoint parts_ltb (a b : list string) : bool :=
  match a, b with
  | [], [] => false
  | [], _ :: _ => true
  | _ :: _, [] => false
  | x :: a', y :: b' =>
      if PyStr.ltb x y then true
      else if PyStr.ltb y x then false
      else parts_ltb a' b'
  end.

Definition ltb (a b : Path) : bool := parts_ltb (parts a) (parts b).

(** [sorted(paths)]: a stable insertion sort on [<]. *)
Fixpoint insert (p : Path) (l : list Path) : list Path :=
  match l with
  | [] => [p]
  | q :: r => if ltb q p then q :: insert p r else p :: l
  end.

Definition sorted (l : list Path) : list Path :=
  fold_right insert [] l.

End PyPath.

(** ** The configuration *)

(** An entry of [mapping.customMappings]. *)
Record CustomMapping := mkCustomMapping {
  source : string;
  target : string
}.

(** [mapping.pathTransform] *)
Record PathTransform := mkPathTransform {
  type : option string;
  separator : option string
}.

Record MappingConfig := mkMappingConfig {
  customMappings : option (list CustomMapping);
  pathTransform : option PathTransform;
  homePageSource : option string;
  createSidebar : option bool;
  sidebarTitle : option string
}.

Record CustomHeaders := mkCustomHeaders {
  enabled : option bool;
  template : option string
}.

Record ContentConfig := mkContentConfig {
  convertRelativeLinks : option bool;
  addSourceHeader : option bool;
  customHeaders : option CustomHeaders
}.

Record SyncConfig := mkSyncConfig {
  docsDirectory : string;
  wikiDirectory : string;
  cleanBeforeSync : option bool;
  excludePatterns : option (list string)
}.

Record RepositoryConfig := mkRepositoryConfig {
  owner : string;
  name : string
}.

Record GithubConfig := mkGithubConfig {
  commitMessage : option string;
  authorName : option string;
  authorEmail : option string
}.

Record Config := mkConfig {
  repository : RepositoryConfig;
  sync : SyncConfig;
  mapping : option MappingConfig;
  content : option ContentConfig;
  github : option GithubConfig
}.

(** [d.get(key, default)] on an optional key. *)
Definition get {A : Type} (o : option A) (default : A) : A :=
  match o with Some a => a | None => default end.

(** [d.get(key) == s]: a missing key gives [None], which is not [s]. *)
Definition get_eqb (o : option string) (s : string) : bool :=
  match o with Some v => String.eqb v s | None => false end.

(** The empty dict [{}] that [config.get('mapping', {})] and its
    siblings fall back to. *)
Definition empty_mapping : MappingConfig := mkMappingConfig None None None None None.
Definition empty_transform : PathTransform := mkPathTransform None None.
Definition empty_content : ContentConfig := mkContentConfig None None None.
Definition empty_headers : CustomHeaders := mkCustomHeaders None None.
Definition empty_github : GithubConfig := mkGithubConfig None None None.

(** [get_default_config] *)
Definition get_default_config : Config :=
  mkConfig
    (mkRepositoryConfig "kufa-dev-team" "url_shortener")
    (mkSyncConfig "./docs" "./wiki-temp" (Some false) None)
    (Some (mkMappingConfig None None (Some "intro.md") (Some true) None))
    (Some (mkContentConfig (Some true) (Some true) None))
    (Some (mkGithubConfig (Some "Sync documentation")
                          (Some "github-actions[bot]")
                          (Some "github-actions[bot]@users.noreply.github.com"))).

(** ** The [WikiSync] object *)

Record WikiSync := mkWikiSync {
  dry_run : bool;
  config : Config;
  wiki_dir : Path;
  docs_dir : Path
}.

(** [WikiSync.__init__], once the configuration is loaded. *)
Definition init (cfg : Config) (dry : bool) : WikiSync :=
  mkWikiSync dry cfg
    (PyPath.parse (wikiDirectory (sync cfg)))
    (PyPath.parse (docsDirectory (sync cfg))).

(** [self.config.get('mapping', {})], [self.config.get('content', {})]
    and [self.config.get('github', {})] *)
Definition mapping_config (self : WikiSync) : MappingConfig :=
  get (mapping (config self)) empty_mapping.
Definition content_config (self : WikiSync) : ContentConfig :=
  get (content (config self)) empty_content.
Definition git_config (self : WikiSync) : GithubConfig :=
  get (github (config self)) empty_github.

(** ** ExclusionFilter: [WikiSync.should_exclude] *)

(** The loop over [exclude_patterns]: it returns at the first pattern
    that matches, and an error of [match] leaves it. *)
Fixpoint any_match (file_path : Path) (exclude_patterns : list string) : result bool :=
  match exclude_patterns with
  | [] => Ok false
  | pattern :: rest =>
      match PyPath.match_ file_path pattern with
      | Ok true => Ok true
      | Ok false => any_match file_path rest
      | Raise e => Raise e
      end
  end.

Definition should_exclude (self : WikiSync) (file_path : Path) : result bool :=
  let exclude_patterns := get (excludePatterns (sync (config self))) [] in
  any_match file_path exclude_patterns.

(** ** PathMapper: [WikiSync.transform_path] *)

(** The loop over [custom_mappings]: the first rule whose [source] is
    [rel_path] returns. *)
Fixpoint find_mapping (custom_mappings : list CustomMapping) (rel_path : string)
  : option CustomMapping :=
  match custom_mappings with
  | [] => None
  | m :: rest =>
      if String.eqb (source m) rel_path then Some m else find_mapping rest rel_path
  end.

Definition transform_path (self : WikiSync) (rel_path : string) : string :=
  let custom_mappings := get (customMappings (mapping_config self)) [] in
  match find_mapping custom_mappings rel_path with
  | Some m => PyStr.replace (target m) ".md" ""
  | None =>
      let transform := get (pathTransform (mapping_config self)) empty_transform in
      if get_eqb (type transform) "flatten" then
        let separator := get (separator transform) "-" in
        PyStr.replace (PyStr.replace rel_path "/" separator) ".md" ""
      else PyStr.replace rel_path ".md" ""
  end.

(** ** ContentTransformer: [WikiSync.convert_links] and [add_header] *)

(** The inner function [replace_link] on the two groups of a match. *)
Definition replace_link (self : WikiSync) (text path : string) : string :=
  let path := PyStr.lstrip path "./" in
  let path := if PyStr.endswith path ".md" then PyStr.drop_last 3 path else path in
  let path := transform_path self path in
  "[" ++ text ++ "](" ++ path ++ ")".

(** A match of [\[([^\]]+)\]\(([^)]+\.md)\)] at the start of [s]: its two
    groups.  Neither class can give a character back to what follows it:
    group 1 is the whole run of characters other than a closing bracket,
    group 2 the whole run of characters other than a closing parenthesis;
    it ends with [.md] after one more character at least. *)
Definition match_link (s : string) : option (string * string) :=
  match s with
  | String "[" s1 =>
      let (text, s2) := Fnmatch.span_until "]" s1 in
      match text, s2 with
      | String _ _, String "]" (String "(" s3) =>
          let (path, s4) := Fnmatch.span_until ")" s3 in
          match s4 with
          | String ")" _ =>
              if PyStr.endswith path ".md" && (4 <=? String.length path)%nat
              then Some (text, path) else None
          | _ => None
          end
      | _, _ => None
      end
  | _ => None
  end.

(** The length of the match with these groups: [[text](path)]. *)
Definition match_length (text path : string) : nat :=
  String.length text + String.length path + 4.

(** [re.sub(pattern, replace_link, content)]: the matches are taken from
    the left and do not overlap; [skip] passes over the rest of a match. *)
Fixpoint sub_links (self : WikiSync) (skip : nat) (content : string) : string :=
  match content with
  | EmptyString => EmptyString
  | String c rest =>
      match skip with
      | S k => sub_links self k rest
      | O =>
          match match_link content with
          | Some (text, path) =>
              replace_link self text path
              ++ sub_links self (match_length text path - 1) rest
          | None => String c (sub_links self 0 rest)
          end
      end
  end.

Definition convert_links (self : WikiSync) (content : string) : string :=
  if negb (get (convertRelativeLinks (content_config self)) true)
  then content
  else sub_links self 0 content.

(** A field that is empty or a number asks for a positional argument. *)
Fixpoint is_index (field : string) : bool :=
  match field with
  | EmptyString => true
  | String c r =>
      let n := nat_of_ascii c in ((48 <=? n) && (n <=? 57))%nat && is_index r
  end.

(** [template.format(source=..., date=...)] for the templates of the
    configuration: [{source}] and [{date}] are replaced, doubled braces
    stand for one brace, any other field has no value, and a brace alone
    is an error.  Conversions and format specifications are not modelled:
    such a field counts as unknown. *)
Fixpoint format_scan (source date : string) (skip : nat) (template : string)
  : result string :=
  match template with
  | EmptyString => Ok EmptyString
  | String c rest =>
      match skip with
      | S k => format_scan source date k rest
      | O =>
          let continue_with (piece : string) (skip' : nat) :=
            match format_scan source date skip' rest with
            | Ok out => Ok (piece ++ out)
            | Raise e => Raise e
            end in
          if Ascii.eqb c "{" then
            match rest with
            | String "{" _ => continue_with "{" 1
            | EmptyString => Raise (ValueError "Single '{' encountered in format string")
            | _ =>
                let (field, after) := Fnmatch.span_until "}" rest in
                match after with
                | String "}" _ =>
                    if String.eqb field "source"
                    then continue_with source (S (String.length field))
                    else if String.eqb field "date"
                    then continue_with date (S (String.length field))
                    else if is_index field
                    then Raise (IndexError
                                  ("Replacement index "
                                   ++ match field with EmptyString => "0" | _ => field end
                                   ++ " out of range for positional args tuple"))
                    else Raise (KeyError field)
                | _ => Raise (ValueError "expected '}' before end of string")
                end
            end
          else if Ascii.eqb c "}" then
            match rest with
            | String "}" _ => continue_with "}" 1
            | _ => Raise (ValueError "Single '}' encountered in format string")
            end
          else continue_with (String c EmptyString) 0
      end
  end.

Definition format (template source date : string) : result string :=
  format_scan source date 0 template.

(** [now] stands for [datetime.now().strftime('%Y-%m-%d %H:%M:%S')]. *)
Definition add_header (self : WikiSync) (now : string) (content source_file : string)
  : result string :=
  if negb (get (addSourceHeader (content_config self)) true) then Ok content
  else
    let header_config := get (customHeaders (content_config self)) empty_headers in
    if get (enabled header_config) true then
      let template := get (template header_config) "<!-- Generated from: {source} -->" in
      match format template source_file now with
      | Ok header => Ok (header ++ String "010" (String "010" content))
      | Raise e => Raise e
      end
    else Ok content.

(** The line feed. *)
Definition nl : string := String "010" EmptyString.

(** ** Effects *)

Inductive level := DEBUG | INFO | WARNING | ERROR.

(** What a run does to the outside: log records, file system calls and
    subprocess calls, in order.  A write, a removal or a subprocess call
    is recorded when it is attempted. *)
Inductive event :=
| Log (lvl : level) (msg : string)
| ReadText (p : Path)
| Mkdir (p : Path)
| WriteText (p : Path) (data : string)
| Rmtree (p : Path)
| Unlink (p : Path)
| Subprocess (args : list string) (cwd : option Path).

(** The outside, as the run finds it.  The run does not change what it
    reads: the documentation tree is taken to lie outside the wiki
    directory.  [rglob_md] lists the entries below the documentation
    directory whose name matches [*.md], by their components relative
    to it, in the order of the enumeration. *)
Record World := mkWorld {
  exists_ : Path -> bool;
  is_dir : Path -> bool;
  rglob_md : list (list string);
  read_ : Path -> result string;
  mkdir_ : Path -> result unit;
  write_ : Path -> string -> result unit;
  iterdir_ : Path -> result (list Path);
  rmtree_ : Path -> result unit;
  unlink_ : Path -> result unit;
  run_ : list string -> option Path -> result (Z * string * string);
  now : string
}.

(** A computation: the events it made and its value or the exception
    that left it. *)
Definition M (A : Type) : Type := list event * result A.

Definition ret {A : Type} (a : A) : M A := ([], Ok a).

Definition bind {A B : Type} (m : M A) (f : A -> M B) : M B :=
  match m with
  | (t, Ok a) => let (t', r) := f a in ((t ++ t')%list, r)
  | (t, Raise e) => (t, Raise e)
  end.

Notation "x <- m ;; k" := (bind m (fun x => k))
  (at level 61, m at next level, right associativity).
Notation "m ;; k" := (bind m (fun _ => k))
  (at level 61, right associativity).

Definition lift {A : Type} (r : result A) : M A := ([], r).

Definition emit (e : event) : M unit := ([e], Ok tt).

(** [try: m except Exception as e: handler e] *)
Definition try_except {A : Type} (m : M A) (handler : exn -> M A) : M A :=
  match m with
  | (t, Raise e) => let (t', r) := handler e in ((t ++ t')%list, r)
  | (t, Ok a) => (t, Ok a)
  end.

Definition trace {A : Type} (m : M A) : list event := fst m.
Definition value {A : Type} (m : M A) : result A := snd m.

Definition log (lvl : level) (msg : string) : M unit := emit (Log lvl msg).

Definition read_text (w : World) (p : Path) : M string :=
  emit (ReadText p) ;; lift (read_ w p).
Definition mkdir (w : World) (p : Path) : M unit :=
  emit (Mkdir p) ;; lift (mkdir_ w p).
Definition write_text (w : World) (p : Path) (data : string) : M unit :=
  emit (WriteText p data) ;; lift (write_ w p data).
Definition rmtree (w : World) (p : Path) : M unit :=
  emit (Rmtree p) ;; lift (rmtree_ w p).
Definition unlink (w : World) (p : Path) : M unit :=
  emit (Unlink p) ;; lift (unlink_ w p).

(** [repr] of a list of strings without quotes to escape. *)
Definition repr_args (args : list string) : string :=
  "[" ++ PyStr.join ", " (map (fun a => "'" ++ a ++ "'") args) ++ "]".

(** [subprocess.run(args, cwd=cwd, ...)]; with [check=True] a return
    code other than zero raises. *)
Definition subprocess_run (w : World) (args : list string) (cwd : option Path)
                          (check : bool) : M (Z * string * string) :=
  emit (Subprocess args cwd) ;;
  r <- lift (run_ w args cwd) ;;
  let '(returncode, _, _) := r in
  if check && negb (returncode =? 0)%Z
  then lift (Raise (CalledProcessError args returncode))
  else ret r.

(** [str(e)] *)
Definition exn_str (e : exn) : string :=
  match e with
  | ValueError msg => msg
  | KeyError key => "'" ++ key ++ "'"
  | IndexError msg => msg
  | OSError msg => msg
  | CalledProcessError args returncode =>
      "Command " ++ repr_args args ++ " returned non-zero exit status "
      ++ NilZero.string_of_int (Z.to_int returncode) ++ "."
  end.

(** ** SyncPlanner: [WikiSync.sync_file] *)

Definition sync_file (self : WikiSync) (w : World) (source_file : Path) : M bool :=
  rel_path <- lift (PyPath.relative_to source_file (docs_dir self)) ;;
  excluded <- lift (should_exclude self source_file) ;;
  if (excluded : bool) then
    log DEBUG ("Excluding " ++ PyPath.str rel_path) ;;
    ret true
  else
    let wiki_name := transform_path self (PyPath.str rel_path) in
    let wiki_file := PyPath.joinpath (wiki_dir self) (wiki_name ++ ".md") in
    log INFO ("Syncing " ++ PyPath.str rel_path ++ " -> " ++ wiki_name ++ ".md") ;;
    if dry_run self then
      log INFO ("[DRY RUN] Would copy " ++ PyPath.str source_file
                ++ " to " ++ PyPath.str wiki_file) ;;
      ret true
    else
      try_except
        (content <- read_text w source_file ;;
         let content := convert_links self content in
         content <- lift (add_header self (now w) content (PyPath.str rel_path)) ;;
         mkdir w (PyPath.parent wiki_file) ;;
         write_text w wiki_file content ;;
         ret true)
        (fun e =>
           log ERROR ("Failed to sync " ++ PyPath.str source_file ++ ": " ++ exn_str e) ;;
           ret false).

(** ** HomePageBuilder: [WikiSync.create_home_page] *)

(** The source of the home page: the configured file, or the [README.md]
    next to the documentation directory. *)
Definition home_source_file (self : WikiSync) (w : World) : option Path :=
  let home_source := get (homePageSource (mapping_config self)) "intro.md" in
  let source_file := PyPath.joinpath (docs_dir self) home_source in
  if exists_ w source_file then Some source_file
  else
    let source_file := PyPath.joinpath (PyPath.parent (docs_dir self)) "README.md" in
    if exists_ w source_file then Some source_file else None.

Definition create_home_page (self : WikiSync) (w : World) : M bool :=
  match home_source_file self w with
  | None =>
      log WARNING "No source file found for Home.md" ;;
      ret false
  | Some source_file =>
      log INFO ("Creating Home.md from " ++ PyPath.name source_file) ;;
      if dry_run self then
        log INFO "[DRY RUN] Would create Home.md" ;;
        ret true
      else
        try_except
          (content <- read_text w source_file ;;
           let content := convert_links self content in
           let home_file := PyPath.joinpath (wiki_dir self) "Home.md" in
           write_text w home_file content ;;
           ret true)
          (fun e =>
             log ERROR ("Failed to create Home.md: " ++ exn_str e) ;;
             ret false)
  end.

(** ** SidebarBuilder: [WikiSync.create_sidebar] *)

(** [files_by_dir]: a dict keeps its keys in the order of their first
    insertion; the values are the lists of (display name, wiki name). *)
Definition groups := list (string * list (string * string)).

(** [files_by_dir[dir_name].append(entry)], after the key is created when
    it is missing. *)
Fixpoint append_entry (files_by_dir : groups) (dir_name : string)
                      (entry : string * string) : groups :=
  match files_by_dir with
  | [] => [(dir_name, [entry])]
  | (k, files) :: rest =>
      if String.eqb k dir_name then (k, (files ++ [entry])%list) :: rest
      else (k, files) :: append_entry rest dir_name entry
  end.

(** [self.docs_dir.rglob('*.md')] *)
Definition rglob (self : WikiSync) (w : World) : list Path :=
  map (fun rel => mkPath (root (docs_dir self)) (tail (docs_dir self) ++ rel)%list)
      (rglob_md w).

(** The body of the grouping loop for one file. *)
Definition group_file (self : WikiSync) (files_by_dir : groups) (md_file : Path)
  : result groups :=
  match should_exclude self md_file with
  | Raise e => Raise e
  | Ok true => Ok files_by_dir
  | Ok false =>
      match PyPath.relative_to md_file (docs_dir self) with
      | Raise e => Raise e
      | Ok rel_path =>
          let parent_name := PyPath.name (PyPath.parent rel_path) in
          let dir_name :=
            match parent_name with EmptyString => "root" | _ => parent_name end in
          let wiki_name := transform_path self (PyPath.str rel_path) in
          let display_name :=
            PyStr.title (PyStr.replace (PyPath.stem md_file) "-" " ") in
          Ok (append_entry files_by_dir dir_name (display_name, wiki_name))
      end
  end.

(** The grouping loop over the sorted files. *)
Fixpoint group_files (self : WikiSync) (files_by_dir : groups) (files : list Path)
  : result groups :=
  match files with
  | [] => Ok files_by_dir
  | md_file :: rest =>
      match group_file self files_by_dir md_file with
      | Ok files_by_dir' => group_files self files_by_dir' rest
      | Raise e => Raise e
      end
  end.

(** The lines written for one group. *)
Definition group_lines (group : string * list (string * string)) : list string :=
  let (dir_name, files) := group in
  let heading :=
    if String.eqb dir_name "root" then []
    else [nl ++ "### " ++ PyStr.title (PyStr.replace dir_name "-" " ") ++ nl] in
  let lines := map (fun f => "* [" ++ fst f ++ "](" ++ snd f ++ ")" ++ nl) files in
  List.app heading lines.

(** [sidebar_content], the list of the pieces of the sidebar. *)
Definition sidebar_content (self : WikiSync) (files_by_dir : groups) : list string :=
  let sidebar_title := get (sidebarTitle (mapping_config self)) "Navigation" in
  ("# " ++ sidebar_title ++ nl)
  :: ("* [Home](Home)" ++ nl)
  :: (nl ++ "## Documentation" ++ nl)
  :: flat_map group_lines files_by_dir.

Definition create_sidebar (self : WikiSync) (w : World) : M bool :=
  if negb (get (createSidebar (mapping_config self)) true) then ret true
  else
    log INFO "Creating sidebar navigation" ;;
    if dry_run self then
      log INFO "[DRY RUN] Would create _Sidebar.md" ;;
      ret true
    else
      try_except
        (files_by_dir <- lift (group_files self [] (PyPath.sorted (rglob self w))) ;;
         let sidebar_file := PyPath.joinpath (wiki_dir self) "_Sidebar.md" in
         write_text w sidebar_file (PyStr.join "" (sidebar_content self files_by_dir)) ;;
         ret true)
        (fun e =>
           log ERROR ("Failed to create sidebar: " ++ exn_str e) ;;
           ret false).

(** ** [WikiSync.sync_docs] *)

(** The cleaning loop: everything in the wiki directory but [.git]. *)
Fixpoint clean_items (w : World) (items : list Path) : M unit :=
  match items with
  | [] => ret tt
  | item :: rest =>
      (if negb (String.eqb (PyPath.name item) ".git") then
         if is_dir w item then rmtree w item else unlink w item
       else ret tt) ;;
      clean_items w rest
  end.

Definition clean_wiki (self : WikiSync) (w : World) : M unit :=
  if get (cleanBeforeSync (sync (config self))) false then
    if dry_run self then log INFO "[DRY RUN] Would clean wiki directory"
    else
      log INFO "Cleaning wiki directory..." ;;
      items <- lift (iterdir_ w (wiki_dir self)) ;;
      clean_items w items
  else ret tt.

(** The loop over the markdown files: [success] becomes and stays false
    at the first file that is not synced. *)
Fixpoint sync_files (self : WikiSync) (w : World) (success : bool)
                    (files : list Path) : M bool :=
  match files with
  | [] => ret success
  | md_file :: rest =>
      ok <- sync_file self w md_file ;;
      sync_files self w (if negb ok then false else success) rest
  end.

Definition sync_docs (self : WikiSync) (w : World) : M bool :=
  if negb (exists_ w (docs_dir self)) then
    log ERROR ("Documentation directory not found: " ++ PyPath.str (docs_dir self)) ;;
    ret false
  else
    clean_wiki self w ;;
    create_home_page self w ;;
    success <- sync_files self w true (rglob self w) ;;
    create_sidebar self w ;;
    ret success.

(** ** The version-control collaborator: [setup_wiki_repo] and
    [push_changes] *)

Definition setup_wiki_repo (self : WikiSync) (w : World) : M bool :=
  let owner := owner (repository (config self)) in
  let name := name (repository (config self)) in
  let wiki_url := "https://github.com/" ++ owner ++ "/" ++ name ++ ".wiki.git" in
  log INFO ("Setting up wiki repository from " ++ wiki_url) ;;
  if dry_run self then
    log INFO "[DRY RUN] Would clone/update wiki repository" ;;
    ret true
  else
    try_except
      (if exists_ w (wiki_dir self)
          && exists_ w (PyPath.joinpath (wiki_dir self) ".git")
       then
         log INFO "Updating existing wiki repository..." ;;
         r <- subprocess_run w ["git"; "pull"; "origin"] (Some (wiki_dir self)) false ;;
         let '(returncode, _, stderr) := r in
         if negb (returncode =? 0)%Z then
           log ERROR ("Failed to update wiki: " ++ stderr) ;;
           ret false
         else ret true
       else
         log INFO "Cloning wiki repository..." ;;
         (if exists_ w (wiki_dir self) then rmtree w (wiki_dir self) else ret tt) ;;
         r <- subprocess_run w ["git"; "clone"; wiki_url; PyPath.str (wiki_dir self)]
                None false ;;
         let '(returncode, _, stderr) := r in
         if negb (returncode =? 0)%Z then
           log ERROR ("Failed to clone wiki: " ++ stderr) ;;
           log ERROR "Make sure the wiki is enabled in repository settings" ;;
           ret false
         else ret true)
      (fun e =>
         log ERROR ("Error setting up wiki repository: " ++ exn_str e) ;;
         ret false).

Definition push_changes (self : WikiSync) (w : World) : M bool :=
  if dry_run self then
    log INFO "[DRY RUN] Would commit and push changes" ;;
    ret true
  else
    let cwd := Some (wiki_dir self) in
    try_except
      (subprocess_run w ["git"; "config"; "user.name";
                         get (authorName (git_config self)) "github-actions[bot]"]
         cwd true ;;
       subprocess_run w ["git"; "config"; "user.email";
                         get (authorEmail (git_config self))
                             "github-actions[bot]@users.noreply.github.com"]
         cwd true ;;
       r <- subprocess_run w ["git"; "status"; "--porcelain"] cwd false ;;
       let '(_, stdout, _) := r in
       if PyStr.all_space stdout then
         log INFO "No changes to push" ;;
         ret true
       else
         subprocess_run w ["git"; "add"; "-A"] cwd true ;;
         let commit_msg := get (commitMessage (git_config self)) "Sync documentation" in
         let commit_msg := commit_msg ++ " - " ++ now w in
         subprocess_run w ["git"; "commit"; "-m"; commit_msg] cwd true ;;
         log INFO "Pushing changes to wiki..." ;;
         r <- subprocess_run w ["git"; "push"; "origin"] cwd false ;;
         let '(returncode, _, stderr) := r in
         if negb (returncode =? 0)%Z then
           log ERROR ("Failed to push: " ++ stderr) ;;
           ret false
         else
           log INFO "Successfully pushed changes to wiki!" ;;
           ret true)
      (fun e =>
         match e with
         | CalledProcessError _ _ =>
             log ERROR ("Git operation failed: " ++ exn_str e) ;;
             ret false
         | _ =>
             log ERROR ("Failed to push changes: " ++ exn_str e) ;;
             ret false
         end).

(** ** [WikiSync.run] *)

Definition run (self : WikiSync) (w : World) : M bool :=
  log INFO "Starting wiki synchronization..." ;;
  log INFO ("Repository: " ++ owner (repository (config self)) ++ "/"
            ++ name (repository (config self))) ;;
  (if dry_run self
   then log INFO "Running in DRY RUN mode - no changes will be made"
   else ret tt) ;;
  ok <- setup_wiki_repo self w ;;
  if negb ok then ret false
  else
    ok <- sync_docs self w ;;
    if negb ok then ret false
    else
      ok <- push_changes self w ;;
      if negb ok then ret false
      else
        log INFO "Wiki synchronization complete!" ;;
        ret true.

(** * Vocabulary of the statements *)

(** ** Discovered files *)

(** The file of the documentation tree with the relative components
    [rel]. *)
Definition doc_file (self : WikiSync) (rel : list string) : Path :=
  mkPath (root (docs_dir self)) (tail (docs_dir self) ++ rel)%list.

(** The message of [sync_file] for a file that is not excluded. *)
Definition syncing_message (self : WikiSync) (rel_path : Path) : string :=
  "Syncing " ++ PyPath.str rel_path ++ " -> "
  ++ transform_path self (PyPath.str rel_path) ++ ".md".

(** The destination file of a document. *)
Definition wiki_file_of (self : WikiSync) (rel_path : Path) : Path :=
  PyPath.joinpath (wiki_dir self) (transform_path self (PyPath.str rel_path) ++ ".md").

(** The answer of [sync_file] for one file. *)
Definition synced (self : WikiSync) (w : World) (f : Path) : bool :=
  match value (sync_file self w f) with
  | Ok b => b
  | Raise _ => false
  end.

(** ** The statements on the path mapper and on the links *)

(** The replacement as the specification words it: exactly one leading
    [./] is removed before the extension is. *)
Definition replace_link_spec (self : WikiSync) (text path : string) : string :=
  let path := PyStr.removeprefix path "./" in
  let path := PyStr.removesuffix path ".md" in
  "[" ++ text ++ "](" ++ transform_path self path ++ ")".

(** A link, in the sense of [match_link], starts somewhere in the
    content. *)
Fixpoint has_link (content : string) : bool :=
  match content with
  | EmptyString => false
  | String _ rest =>
      (match match_link content with Some _ => true | None => false end)
      || has_link rest
  end.

(** ** The statements on the exclusion filter *)

(** A pattern [match] accepts: it has a component or a root. *)
Definition valid_pattern (pattern : string) : Prop :=
  PyPath.parts (PyPath.parse pattern) <> [].

(** [p.match(pattern)] when it returns. *)
Definition path_matches (p : Path) (pattern : string) : bool :=
  match PyPath.match_ p pattern with
  | Ok b => b
  | Raise _ => false
  end.

(** Component by component, for lists of the same length. *)
Fixpoint all2 (parts pats : list string) : bool :=
  match parts, pats with
  | [], [] => true
  | part :: parts', pat :: pats' => Fnmatch.fnmatchcase part pat && all2 parts' pats'
  | _, _ => false
  end.

(** The last components of the path against the components of the
    pattern. *)
Definition suffix_match (parts pats : list string) : bool :=
  (List.length pats <=? List.length parts)%nat
  && all2 (skipn (List.length parts - List.length pats) parts) pats.

(** The exclusion as the specification words it: a shell pattern
    against the string of the relative path. *)
Definition spec_excluded (patterns : list string) (rel_path : Path) : bool :=
  existsb (Fnmatch.fnmatchcase (PyPath.str rel_path)) patterns.

(** ** The statements on the sidebar *)

(** The key of the group of a file: the name of the directory that
    contains it, [root] for a file directly in the documentation
    directory. *)
Definition file_dir (self : WikiSync) (md_file : Path) : string :=
  match PyPath.relative_to md_file (docs_dir self) with
  | Ok rel_path =>
      let parent_name := PyPath.name (PyPath.parent rel_path) in
      match parent_name with EmptyString => "root" | _ => parent_name end
  | Raise _ => EmptyString
  end.

(** A file that [should_exclude] answers False for. *)
Definition is_kept (self : WikiSync) (f : Path) : bool :=
  match should_exclude self f with Ok false => true | _ => false end.

(** The files that are not excluded, in their order. *)
Definition kept (self : WikiSync) (files : list Path) : list Path :=
  filter (is_kept self) files.

(** A key is added at the end when it is new. *)
Definition add_key (keys : list string) (k : string) : list string :=
  if existsb (String.eqb k) keys then keys else (keys ++ [k])%list.




(** ** The statements on the effects *)

(** A log record. *)
Definition is_log (e : event) : bool :=
  match e with Log _ _ => true | _ => false end.

(** The events that change the file system. *)
Definition is_write (e : event) : bool :=
  match e with
  | Mkdir _ | WriteText _ _ | Rmtree _ | Unlink _ => true
  | _ => false
  end.

(** A subprocess call. *)
Definition is_subprocess (e : event) : bool :=
  match e with Subprocess _ _ => true | _ => false end.

(** Only log records. *)
Definition only_logs (t : list event) : Prop := forallb is_log t = true.

(** The same object outside dry-run mode. *)
Definition real (self : WikiSync) : WikiSync :=
  mkWikiSync false (config self) (wiki_dir self) (docs_dir self).

(** The claim on the report of a dry run: the plan of the real run, the
    changes it makes to the file system, can be read off the dry run. *)
Definition dry_run_reports_plan (cfg : Config) : Prop :=
  exists report : list event -> list event,
    forall w, report (trace (run (init cfg true) w))
              = filter is_write (trace (run (init cfg false) w)).

(** ** Configurations and worlds of the examples *)

(** A configuration with the given override rules and transform. *)
Definition config_with (rules : list CustomMapping) (transform : option PathTransform)
  : Config :=
  mkConfig
    (mkRepositoryConfig "kufa-dev-team" "url_shortener")
    (mkSyncConfig "./docs" "./wiki-temp" None None)
    (Some (mkMappingConfig (Some rules) transform None None None))
    None None.

(** Flatten mode with the separator [-]. *)
Definition flatten : option PathTransform :=
  Some (mkPathTransform (Some "flatten") (Some "-")).

(** The configuration with the override of the specification. *)
Definition override_self : WikiSync :=
  init (config_with [mkCustomMapping "x.md" "custom-name.md"] None) false.

(** A configuration with the given exclusion patterns and home page
    source. *)
Definition config_excluding (patterns : list string) (home : option string) : Config :=
  mkConfig
    (mkRepositoryConfig "kufa-dev-team" "url_shortener")
    (mkSyncConfig "./docs" "./wiki-temp" None (Some patterns))
    (Some (mkMappingConfig None None home None None))
    None None.

(** The configuration of the scenarios of the specification: link
    rewriting on, header injection off. *)
Definition scenario_config (transform : option PathTransform) : Config :=
  mkConfig
    (mkRepositoryConfig "kufa-dev-team" "url_shortener")
    (mkSyncConfig "./docs" "./wiki-temp" None None)
    (Some (mkMappingConfig None transform None None None))
    (Some (mkContentConfig (Some true) (Some false) None))
    None.

(** The documentation directory of these configurations. *)
Definition docs : Path := mkPath "" ["docs"].

(** Equality of two lists of components. *)
Fixpoint parts_eqb (a b : list string) : bool :=
  match a, b with
  | [], [] => true
  | x :: a', y :: b' => String.eqb x y && parts_eqb a' b'
  | _, _ => false
  end.

(** Equality of two paths. *)
Definition path_eqb (p q : Path) : bool :=
  String.eqb (root p) (root q) && parts_eqb (tail p) (tail q).

(** A world with the documentation directory [docs], the given files in
    it (relative components and content), the given other files, and
    no failure. *)
Definition tree_world (docs : Path) (files : list (list string * string))
                      (others : list (Path * string)) : World :=
  let located :=
    (map (fun f => (mkPath (root docs) (tail docs ++ fst f)%list, snd f)) files
     ++ others)%list in
  mkWorld
    (fun p => path_eqb p docs || existsb (fun f => path_eqb p (fst f)) located)
    (fun _ => false)
    (map fst files)
    (fun p =>
       match find (fun f => path_eqb p (fst f)) located with
       | Some f => Ok (snd f)
       | None => Raise (OSError "No such file or directory")
       end)
    (fun _ => Ok tt)
    (fun _ _ => Ok tt)
    (fun _ => Ok [])
    (fun _ => Ok tt)
    (fun _ => Ok tt)
    (fun _ _ => Ok (0%Z, "", ""))
    "2024-01-01 00:00:00".

(** A world where reading the files [bad_read] and writing the files
    [bad_write] fails, and which is [w] otherwise. *)
Definition with_failures (w : World) (bad_read bad_write : list Path) : World :=
  mkWorld
    (exists_ w) (is_dir w) (rglob_md w)
    (fun p => if existsb (path_eqb p) bad_read
              then Raise (OSError "Permission denied") else read_ w p)
    (mkdir_ w)
    (fun p data => if existsb (path_eqb p) bad_write
                   then Raise (OSError "No space left on device") else write_ w p data)
    (iterdir_ w) (rmtree_ w) (unlink_ w) (run_ w) (now w).

(** The tree of the scenarios of the specification. *)
Definition scenario_world : World :=
  tree_world docs
    [(["intro.md"], "# Intro" ++ nl ++ "[See guide](./guides/setup.md)");
     (["guides"; "setup.md"], "# Setup")] [].

(** ** The statements on the header, the sidebar entries and the
    collaborators *)

(** The header that [add_header] puts before the content, once the
    template is filled in: the header line and an empty line. *)
Definition header_block (header : string) : string := header ++ nl ++ nl.

(** The template of the header when the configuration gives none. *)
Definition default_template : string := "<!-- Generated from: {source} -->".

(** The number of entries of the groups. *)
Fixpoint total_entries (g : groups) : nat :=
  match g with
  | [] => 0
  | (_, files) :: rest => List.length files + total_entries rest
  end.

(** The removal of one item by the cleaning loop. *)
Definition removal (w : World) (item : Path) : event :=
  if is_dir w item then Rmtree item else Unlink item.

(** The items the cleaning loop removes. *)
Definition cleaned (items : list Path) : list Path :=
  filter (fun item => negb (String.eqb (PyPath.name item) ".git")) items.

(** The removal of a file or directory that is not named [.git]. *)
Definition removes_other_than_git (e : event) : bool :=
  match e with
  | Rmtree p | Unlink p => negb (String.eqb (PyPath.name p) ".git")
  | _ => false
  end.

(** The three log records [run] starts with. *)
Definition run_header (self : WikiSync) : list event :=
  (Log INFO "Starting wiki synchronization..."
   :: Log INFO ("Repository: " ++ owner (repository (config self)) ++ "/"
                ++ name (repository (config self)))
   :: (if dry_run self
       then [Log INFO "Running in DRY RUN mode - no changes will be made"]
       else []))%list.

(** The git commands of [push_changes]. *)
Definition git_user_name (self : WikiSync) : list string :=
  ["git"; "config"; "user.name"; get (authorName (git_config self)) "github-actions[bot]"].

Definition git_user_email (self : WikiSync) : list string :=
  ["git"; "config"; "user.email";
   get (authorEmail (git_config self)) "github-actions[bot]@users.noreply.github.com"].

Definition git_status : list string := ["git"; "status"; "--porcelain"].

Definition git_push : list string := ["git"; "push"; "origin"].

(** A configuration with the given header settings, link rewriting on. *)
Definition config_with_headers (headers : option CustomHeaders) : Config :=
  mkConfig
    (mkRepositoryConfig "kufa-dev-team" "url_shortener")
    (mkSyncConfig "./docs" "./wiki-temp" (Some true) None)
    None
    (Some (mkContentConfig None None headers))
    None.

(** A world like [w] with the given wiki directory content, answers of
    git and existing paths. *)
Definition with_git (w : World) (existing : list Path) (items : list Path)
                    (git : list string -> result (Z * string * string)) : World :=
  mkWorld
    (fun p => existsb (path_eqb p) existing || exists_ w p)
    (is_dir w) (rglob_md w) (read_ w) (mkdir_ w) (write_ w)
    (fun _ => Ok items) (rmtree_ w) (unlink_ w)
    (fun args _ => git args) (now w).

Definition git_add : list string := ["git"; "add"; "-A"].

(** The commit command: the configured message and the time of the run. *)
Definition git_commit (self : WikiSync) (w : World) : list string :=
  ["git"; "commit"; "-m";
   get (commitMessage (git_config self)) "Sync documentation" ++ " - " ++ now w].

(** A pattern of one component, without root. *)
Definition one_component (pattern : string) : Prop :=
  root (PyPath.parse pattern) = "" /\ List.length (tail (PyPath.parse pattern)) = 1%nat.

(** The component of such a pattern. *)
Definition component (pattern : string) : string :=
  hd EmptyString (tail (PyPath.parse pattern)).

(** * Properties *)

Example fnmatch_star : Fnmatch.fnmatchcase "setup.md" "*.md" = true.
Proof. reflexivity. Qed.
Example fnmatch_star_crosses : Fnmatch.fnmatchcase "a/x.md" "a*" = true.
Proof. reflexivity. Qed.
Example fnmatch_set : Fnmatch.fnmatchcase "b1" "[a-c][!a-z]" = true.
Proof. reflexivity. Qed.
Example fnmatch_set_no : Fnmatch.fnmatchcase "d1" "[a-c][!a-z]" = false.
Proof. reflexivity. Qed.
Example fnmatch_open_bracket : Fnmatch.fnmatchcase "[x" "[x" = true.
Proof. reflexivity. Qed.
Example fnmatch_trailing_hyphen : Fnmatch.fnmatchcase "-" "[a-]" = true.
Proof. reflexivity. Qed.
Example fnmatch_empty_range : Fnmatch.fnmatchcase "a" "[z-a]" = false.
Proof. reflexivity. Qed.
Example parse_docs : PyPath.parse "./docs" = mkPath "" ["docs"].
Proof. reflexivity. Qed.
Example parse_abs : PyPath.parse "//a/./b/" = mkPath "//" ["a"; "b"].
Proof. reflexivity. Qed.
Example match_right_anchored :
  PyPath.match_ (mkPath "" ["docs"; "a"; "x.md"]) "x.md" = Ok true.
Proof. reflexivity. Qed.
Example match_star_one_component :
  PyPath.match_ (mkPath "" ["docs"; "a"; "b"; "x.md"]) "a/*" = Ok false.
Proof. reflexivity. Qed.
Example match_empty_pattern :
  PyPath.match_ (mkPath "" ["docs"; "x.md"]) "" = Raise (ValueError "empty pattern").
Proof. reflexivity. Qed.
Example stem_md : PyPath.stem (mkPath "" ["a"; "getting-started.md"]) = "getting-started".
Proof. reflexivity. Qed.
Example sorted_paths :
  PyPath.sorted [mkPath "" ["docs"; "b.md"]; mkPath "" ["docs"; "a"; "x.md"]]
  = [mkPath "" ["docs"; "a"; "x.md"]; mkPath "" ["docs"; "b.md"]].
Proof. reflexivity. Qed.
Example match_root_counts_as_part :
  PyPath.match_ (mkPath "/" ["a"]) "*/a" = Ok true.
Proof. reflexivity. Qed.
Example fnmatch_hyphen_after_range : Fnmatch.fnmatchcase "-" "[a-c-e]" = true.
Proof. reflexivity. Qed.
Example title_words : PyStr.title "getting started" = "Getting Started".
Proof. reflexivity. Qed.
Example replace_no_overlap : PyStr.replace "aaa" "aa" "b" = "ba".
Proof. reflexivity. Qed.
Example transform_identity :
  transform_path (init get_default_config false) "guides/setup.md" = "guides/setup".
Proof. reflexivity. Qed.
Example convert_simple :
  convert_links (init get_default_config false)
                "# Intro [See guide](./guides/setup.md) and [x](http://a.b/c) done"
  = "# Intro [See guide](guides/setup) and [x](http://a.b/c) done".
Proof. reflexivity. Qed.
Example format_default :
  format "<!-- Generated from: {source} -->" "a/b.md" "2024-01-01 00:00:00"
  = Ok "<!-- Generated from: a/b.md -->".
Proof. reflexivity. Qed.
Example format_braces :
  format "{{x}} {date} {who}" "a" "D" = Raise (KeyError "who").
Proof. reflexivity. Qed.

(** The scenarios of the specification: what a run writes. *)
Example scenario_identity :
  filter is_write (trace (sync_docs (init (scenario_config None) false) scenario_world))
  = [WriteText (mkPath "" ["wiki-temp"; "Home.md"])
       ("# Intro" ++ nl ++ "[See guide](guides/setup)");
     Mkdir (mkPath "" ["wiki-temp"]);
     WriteText (mkPath "" ["wiki-temp"; "intro.md"])
       ("# Intro" ++ nl ++ "[See guide](guides/setup)");
     Mkdir (mkPath "" ["wiki-temp"; "guides"]);
     WriteText (mkPath "" ["wiki-temp"; "guides"; "setup.md"]) "# Setup";
     WriteText (mkPath "" ["wiki-temp"; "_Sidebar.md"])
       ("# Navigation" ++ nl ++ "* [Home](Home)" ++ nl ++ nl
        ++ "## Documentation" ++ nl ++ nl
        ++ "### Guides" ++ nl ++ "* [Setup](guides/setup)" ++ nl
        ++ "* [Intro](intro)" ++ nl)].
Proof. reflexivity. Qed.

Example scenario_flatten :
  filter is_write (trace (sync_docs (init (scenario_config flatten) false) scenario_world))
  = [WriteText (mkPath "" ["wiki-temp"; "Home.md"])
       ("# Intro" ++ nl ++ "[See guide](guides-setup)");
     Mkdir (mkPath "" ["wiki-temp"]);
     WriteText (mkPath "" ["wiki-temp"; "intro.md"])
       ("# Intro" ++ nl ++ "[See guide](guides-setup)");
     Mkdir (mkPath "" ["wiki-temp"]);
     WriteText (mkPath "" ["wiki-temp"; "guides-setup.md"]) "# Setup";
     WriteText (mkPath "" ["wiki-temp"; "_Sidebar.md"])
       ("# Navigation" ++ nl ++ "* [Home](Home)" ++ nl ++ nl
        ++ "## Documentation" ++ nl ++ nl
        ++ "### Guides" ++ nl ++ "* [Setup](guides-setup)" ++ nl
        ++ "* [Intro](intro)" ++ nl)].
Proof. reflexivity. Qed.

(** ** Strings *)

Lemma append_assoc (a b c : string) : (a ++ b) ++ c = a ++ (b ++ c).
Proof. induction a as [|x a IH]; simpl; [reflexivity | now rewrite IH]. Qed.

Lemma length_append (a b : string) :
  String.length (a ++ b) = (String.length a + String.length b)%nat.
Proof. induction a as [|x a IH]; simpl; [reflexivity | now rewrite IH]. Qed.

Lemma drop_append (a b : string) : PyStr.drop (String.length a) (a ++ b) = b.
Proof. induction a as [|x a IH]; simpl; [now destruct b | exact IH]. Qed.

Lemma take_append (a b : string) : PyStr.take (String.length a) (a ++ b) = a.
Proof.
  induction a as [|x a IH]; simpl; [now destruct b | now rewrite IH].
Qed.

Lemma endswith_append (a b : string) : PyStr.endswith (a ++ b) b = true.
Proof.
  unfold PyStr.endswith. rewrite length_append.
  replace (String.length a + String.length b - String.length b)%nat
    with (String.length a) by lia.
  rewrite drop_append, String.eqb_refl, Bool.andb_true_r.
  apply Nat.leb_le. lia.
Qed.

Lemma drop_last_append (a b : string) : PyStr.drop_last (String.length b) (a ++ b) = a.
Proof.
  unfold PyStr.drop_last. rewrite length_append.
  replace (String.length a + String.length b - String.length b)%nat
    with (String.length a) by lia.
  apply take_append.
Qed.

(** Removing the suffix of [a ++ ".md"] gives [a] back. *)
Lemma removesuffix_md (a : string) : PyStr.removesuffix (a ++ ".md") ".md" = a.
Proof.
  unfold PyStr.removesuffix. rewrite endswith_append. apply (drop_last_append a ".md").
Qed.

(** ** PathMapper *)

Example transform_flatten :
  transform_path (init (config_with [] flatten) false) "guides/setup.md" = "guides-setup".
Proof. reflexivity. Qed.

Example transform_override :
  transform_path (init (config_with [mkCustomMapping "x.md" "custom-name.md"] flatten) false)
                 "x.md" = "custom-name".
Proof. reflexivity. Qed.

(** The override rules come first: a rule found for the path decides
    the result, whatever the transform. *)
Lemma transform_path_override (self : WikiSync) (rel_path : string) (m : CustomMapping) :
  find_mapping (get (customMappings (mapping_config self)) []) rel_path = Some m ->
  transform_path self rel_path = PyStr.replace (target m) ".md" "".
Proof.
  intros H. unfold transform_path. now rewrite H.
Qed.

(** The rule found is the first one, in the configured order, whose
    source is the path. *)
Lemma find_mapping_first (before after : list CustomMapping) (m : CustomMapping)
      (rel_path : string) :
  Forall (fun r => source r <> rel_path) before ->
  source m = rel_path ->
  find_mapping (before ++ m :: after)%list rel_path = Some m.
Proof.
  intros Hb Hm. induction Hb as [|r before Hr _ IH]; simpl.
  - rewrite Hm, String.eqb_refl. reflexivity.
  - apply String.eqb_neq in Hr. rewrite Hr. exact IH.
Qed.

(** C2 (failing input): [transform_path] removes every occurrence of
    [.md], not only a trailing extension.  On [v1.mdx/intro.md] the [.md]
    inside the directory name is lost, and the path [notes.mdx], which
    has no [.md] extension, is changed. *)
Theorem transform_path_removes_inner_md :
  transform_path (init get_default_config false) "v1.mdx/intro.md" = "v1x/intro"
  /\ transform_path (init get_default_config false) "notes.mdx" = "notesx"
  /\ PyStr.removesuffix "v1.mdx/intro.md" ".md" = "v1.mdx/intro"
  /\ PyStr.removesuffix "notes.mdx" ".md" = "notes.mdx".
Proof. repeat split; reflexivity. Qed.

(** C8 (failing input): the target of the rule that applies loses every
    occurrence of [.md], not only the trailing extension: the rule
    [x.md -> notes.mdx.md] maps [x.md] to [notesx], where the target
    without its extension is [notes.mdx]. *)
Theorem transform_path_override_inner_md :
  let self := init (config_with [mkCustomMapping "x.md" "notes.mdx.md"] flatten) false in
  transform_path self "x.md" = "notesx"
  /\ PyStr.removesuffix "notes.mdx.md" ".md" = "notes.mdx".
Proof. split; reflexivity. Qed.

(** *** [replace] and the extension *)

(** No occurrence of [.md] starts in [q] and ends in an extension put
    after it. *)
Lemma startswith_md_append (c : ascii) (q : string) :
  PyStr.startswith (String c q ++ ".md") ".md" = PyStr.startswith (String c q) ".md".
Proof.
  destruct q as [|d [|e r]]; cbn [PyStr.startswith String.append].
  - destruct (Ascii.eqb "." c); reflexivity.
  - destruct (Ascii.eqb "." c), (Ascii.eqb "m" d); reflexivity.
  - reflexivity.
Qed.

Lemma startswith_md_length (c : ascii) (q : string) :
  PyStr.startswith (String c q) ".md" = true -> (2 <= String.length q)%nat.
Proof.
  destruct q as [|d [|e r]]; cbn [PyStr.startswith String.length]; intros H.
  - destruct (Ascii.eqb "." c); discriminate H.
  - destruct (Ascii.eqb "." c), (Ascii.eqb "m" d); discriminate H.
  - lia.
Qed.

(** Removing every [.md] from a path with the extension or without it
    gives the same. *)
Lemma replace_scan_md_suffix (q : string) :
  forall skip,
    (skip <= String.length q)%nat ->
    PyStr.replace_scan ".md" "" skip (q ++ ".md") = PyStr.replace_scan ".md" "" skip q.
Proof.
  induction q as [|c q IH]; intros skip Hskip.
  - simpl in Hskip. assert (skip = 0%nat) by lia. subst skip. reflexivity.
  - destruct skip as [|k].
    + change (String c q ++ ".md") with (String c (q ++ ".md")).
      cbn [PyStr.replace_scan].
      change (String c (q ++ ".md")) with (String c q ++ ".md").
      rewrite startswith_md_append.
      destruct (PyStr.startswith (String c q) ".md") eqn:E.
      * apply startswith_md_length in E. simpl String.length. simpl Nat.sub.
        now rewrite IH.
      * now rewrite IH by lia.
    + simpl. apply IH. simpl in Hskip. lia.
Qed.

Lemma replace_md_suffix (q : string) :
  PyStr.replace (q ++ ".md") ".md" "" = PyStr.replace q ".md" "".
Proof. apply replace_scan_md_suffix. lia. Qed.

(** Replacing a one-character string goes through a concatenation. *)
Lemma replace_char_append (a : ascii) (new x y : string) :
  PyStr.replace_scan (String a "") new 0 (x ++ y)
  = PyStr.replace_scan (String a "") new 0 x ++ PyStr.replace_scan (String a "") new 0 y.
Proof.
  induction x as [|c x IH]; [reflexivity|].
  change (String c x ++ y) with (String c (x ++ y)).
  cbn [PyStr.replace_scan PyStr.startswith String.length Nat.sub].
  rewrite IH. destruct (Ascii.eqb a c); simpl; [now rewrite append_assoc | reflexivity].
Qed.

(** Without an override for the path with its extension or without it,
    [transform_path] gives the same for both. *)
Lemma transform_path_md_suffix (self : WikiSync) (q : string) :
  let rules := get (customMappings (mapping_config self)) [] in
  find_mapping rules (q ++ ".md") = None ->
  find_mapping rules q = None ->
  transform_path self q = transform_path self (q ++ ".md").
Proof.
  intros rules H1 H2. unfold transform_path. fold rules. rewrite H1, H2.
  destruct (get_eqb _ "flatten").
  - unfold PyStr.replace at 2 4.
    rewrite (replace_char_append "/" _ q ".md").
    change (PyStr.replace_scan "/" _ 0 ".md") with ".md".
    now rewrite replace_md_suffix.
  - now rewrite replace_md_suffix.
Qed.

(** Where the string has no [.md], [replace] leaves it as it is. *)
Lemma replace_scan_absent (old new q : string) :
  PyStr.contains q old = false -> PyStr.replace_scan old new 0 q = q.
Proof.
  induction q as [|c q IH]; [reflexivity|].
  cbn [PyStr.contains PyStr.replace_scan]. intros H.
  apply Bool.orb_false_iff in H. destruct H as [Hs Hq].
  now rewrite Hs, (IH Hq).
Qed.

(** The extension alone is stripped when it is the only [.md]: with no
    override for the path, [transform_path] of [q.md] is [q] in identity
    mode and [q] with its separators replaced in flatten mode, as long as
    that string has no [.md] in it. *)
Theorem transform_path_strips_extension (self : WikiSync) (q : string) :
  let rules := get (customMappings (mapping_config self)) [] in
  let transform := get (pathTransform (mapping_config self)) empty_transform in
  let mapped :=
    if get_eqb (type transform) "flatten"
    then PyStr.replace q "/" (get (separator transform) "-")
    else q in
  find_mapping rules (q ++ ".md") = None ->
  PyStr.contains mapped ".md" = false ->
  transform_path self (q ++ ".md") = mapped.
Proof.
  intros rules transform mapped Hnone Habsent. unfold transform_path.
  fold rules. rewrite Hnone. fold transform. subst mapped.
  destruct (get_eqb (type transform) "flatten").
  - unfold PyStr.replace at 2.
    rewrite (replace_char_append "/" _ q ".md").
    change (PyStr.replace_scan "/" _ 0 ".md") with ".md".
    rewrite replace_md_suffix. now apply replace_scan_absent.
  - rewrite replace_md_suffix. now apply replace_scan_absent.
Qed.

Lemma transform_path_strips_extension_witness :
  transform_path (init (config_with [] flatten) false) ("guides/setup" ++ ".md")
  = "guides-setup".
Proof.
  apply (transform_path_strips_extension (init (config_with [] flatten) false)
           "guides/setup"); reflexivity.
Defined.

(** An override whose target has no [.md] but its extension gives the
    target without the extension, whatever the transform. *)
Theorem transform_path_override_strips_extension
        (self : WikiSync) (rel_path t : string) (m : CustomMapping) :
  find_mapping (get (customMappings (mapping_config self)) []) rel_path = Some m ->
  target m = t ++ ".md" ->
  PyStr.contains t ".md" = false ->
  transform_path self rel_path = t.
Proof.
  intros Hm Ht Habsent. rewrite (transform_path_override self rel_path m Hm), Ht.
  rewrite replace_md_suffix. now apply replace_scan_absent.
Qed.

Lemma transform_path_override_strips_extension_witness :
  transform_path (init (config_with [mkCustomMapping "x.md" "custom-name.md"] flatten)
                       false) "x.md"
  = "custom-name".
Proof.
  apply (transform_path_override_strips_extension
           (init (config_with [mkCustomMapping "x.md" "custom-name.md"] flatten) false)
           "x.md" "custom-name" (mkCustomMapping "x.md" "custom-name.md"));
    reflexivity.
Defined.

(** ** Link rewriting *)

(** C3 (failing input): [lstrip('./')] removes every leading dot and
    slash, so the link to [../x.md] is rewritten to [x]; with exactly one
    [./] removed its target is [../x]. *)
Theorem convert_links_strips_all_dots_and_slashes :
  let self := init get_default_config false in
  convert_links self "[up](../x.md)" = "[up](x)"
  /\ match_link "[up](../x.md)" = Some ("up", "../x.md")
  /\ replace_link_spec self "up" "../x.md" = "[up](../x)".
Proof. repeat split; reflexivity. Qed.

(** Content in which no link starts is returned as it is: anchors,
    targets without the extension and addresses that do not end in
    [.md] are not touched. *)
Lemma convert_links_no_link (self : WikiSync) (content : string) :
  has_link content = false -> convert_links self content = content.
Proof.
  intros H. unfold convert_links. destruct (negb _); [reflexivity|].
  induction content as [|c rest IH]; [reflexivity|].
  cbn [has_link] in H. apply Bool.orb_false_iff in H. destruct H as [Hm Hrest].
  cbn [sub_links]. destruct (match_link (String c rest)) as [[text path]|];
    [discriminate Hm|].
  now rewrite (IH Hrest).
Qed.

Example no_link_in_other_forms :
  has_link "[a](https://example.org/page) [b](#anchor) [c](notes.txt) [d](x.md#top)"
  = false.
Proof. reflexivity. Qed.

(** An address that ends in [.md] is a match like any other. *)
Example convert_links_absolute_md :
  convert_links (init get_default_config false) "[a](https://example.org/a.md)"
  = "[a](https://example.org/a)".
Proof. reflexivity. Qed.

(** *** One link in a document *)

Lemma span_until_append (stop : ascii) (a rest : string) :
  PyStr.mem stop a = false ->
  Fnmatch.span_until stop (a ++ String stop rest) = (a, String stop rest).
Proof.
  induction a as [|c a IH]; cbn [PyStr.mem String.append Fnmatch.span_until]; intros H.
  - now rewrite Ascii.eqb_refl.
  - apply Bool.orb_false_iff in H. destruct H as [Hc Ha].
    rewrite Ascii.eqb_sym, Hc. now rewrite (IH Ha).
Qed.

(** The characters of a match are passed over. *)
Lemma sub_links_skip (self : WikiSync) (a rest : string) :
  sub_links self (String.length a) (a ++ rest) = sub_links self 0 rest.
Proof.
  induction a as [|c a IH]; [reflexivity | exact IH].
Qed.

(** Text without an opening bracket before a link is copied. *)
Lemma sub_links_prefix (self : WikiSync) (before rest : string) :
  PyStr.mem "[" before = false ->
  sub_links self 0 (before ++ rest) = before ++ sub_links self 0 rest.
Proof.
  induction before as [|c before IH]; intros H; [reflexivity|].
  cbn [PyStr.mem] in H. apply Bool.orb_false_iff in H. destruct H as [Hc Hrest].
  change (String c before ++ rest) with (String c (before ++ rest)).
  cbn [sub_links].
  assert (Hno : match_link (String c (before ++ rest)) = None).
  { destruct c as [[] [] [] [] [] [] [] []]; try reflexivity. discriminate Hc. }
  rewrite Hno, (IH Hrest). reflexivity.
Qed.

(** The link [[text](path)] at the start of the content is a match. *)
Lemma match_link_at (text path rest : string) :
  text <> "" ->
  PyStr.mem "]" text = false ->
  PyStr.mem ")" path = false ->
  PyStr.endswith path ".md" = true ->
  (4 <= String.length path)%nat ->
  match_link ("[" ++ text ++ "](" ++ path ++ ")" ++ rest) = Some (text, path).
Proof.
  intros Htext Hb Hp Hmd Hlen. cbn [String.append match_link].
  change (text ++ String "]" (String "(" (path ++ String ")" rest)))
    with (text ++ String "]" ("(" ++ path ++ ")" ++ rest)).
  rewrite (span_until_append "]" text _ Hb).
  destruct text as [|c text]; [contradiction|].
  cbn [String.append].
  rewrite (span_until_append ")" path rest Hp), Hmd.
  apply Nat.leb_le in Hlen. now rewrite Hlen.
Qed.

(** What the code does with one link that stands after text without
    brackets. *)
Lemma sub_links_one_link (self : WikiSync) (before text path rest : string) :
  PyStr.mem "[" before = false ->
  text <> "" ->
  PyStr.mem "]" text = false ->
  PyStr.mem ")" path = false ->
  PyStr.endswith path ".md" = true ->
  (4 <= String.length path)%nat ->
  sub_links self 0 (before ++ "[" ++ text ++ "](" ++ path ++ ")" ++ rest)
  = before ++ replace_link self text path ++ sub_links self 0 rest.
Proof.
  intros Hbefore Htext Hb Hp Hmd Hlen.
  rewrite (sub_links_prefix self before _ Hbefore). f_equal.
  assert (Hm := match_link_at text path rest Htext Hb Hp Hmd Hlen).
  cbn [String.append] in *. cbn [sub_links]. rewrite Hm.
  f_equal.
  replace (match_length text path - 1)%nat
    with (String.length (text ++ "](" ++ path ++ ")")).
  - rewrite <- (sub_links_skip self (text ++ "](" ++ path ++ ")") rest).
    f_equal. rewrite append_assoc. cbn [String.append]. do 3 f_equal.
    now rewrite append_assoc.
  - unfold match_length. rewrite !length_append. simpl. lia.
Qed.

(** The path of a link [./p.md], for [p] that starts with neither a dot
    nor a slash, is [p] once the prefix and the extension are removed. *)
Lemma link_path_stripped (p : string) :
  match p with
  | String c _ => PyStr.mem c "./" = false
  | EmptyString => True
  end ->
  let path := PyStr.lstrip ("./" ++ p ++ ".md") "./" in
  (if PyStr.endswith path ".md" then PyStr.drop_last 3 path else path) = p
  \/ p = "".
Proof.
  intros Hp. destruct p as [|c p]; [now right | left].
  cbn [String.append PyStr.lstrip].
  change (PyStr.mem "." "./") with true. change (PyStr.mem "/" "./") with true.
  cbv iota. rewrite Hp.
  change (String c (p ++ ".md")) with (String c p ++ ".md").
  rewrite endswith_append. apply (drop_last_append (String c p) ".md").
Qed.

(** Mapping consistency, where it holds: when link rewriting is on and
    no override rule has the path of the document, with or without its
    extension, as its source, a link [[label](./p.md)] to the document
    [p.md] is rewritten to the destination that [sync_file] and
    [create_sidebar] compute for it, [transform_path] of [p.md]. *)
Theorem link_target_consistent_without_override
        (self : WikiSync) (before label p rest : string) :
  get (convertRelativeLinks (content_config self)) true = true ->
  find_mapping (get (customMappings (mapping_config self)) []) (p ++ ".md") = None ->
  find_mapping (get (customMappings (mapping_config self)) []) p = None ->
  PyStr.mem "[" before = false ->
  label <> "" ->
  PyStr.mem "]" label = false ->
  PyStr.mem ")" p = false ->
  match p with
  | String c _ => PyStr.mem c "./" = false
  | EmptyString => False
  end ->
  convert_links self (before ++ "[" ++ label ++ "](./" ++ p ++ ".md)" ++ rest)
  = before ++ "[" ++ label ++ "](" ++ transform_path self (p ++ ".md") ++ ")"
    ++ convert_links self rest.
Proof.
  intros Hon H1 H2 Hbefore Hlabel Hb Hp Hfirst.
  unfold convert_links. rewrite Hon. cbn [negb].
  assert (Hpath : PyStr.mem ")" ("./" ++ p ++ ".md") = false).
  { cbn [String.append PyStr.mem].
    change (Ascii.eqb ")" ".") with false. change (Ascii.eqb ")" "/") with false.
    cbn [orb]. clear -Hp. induction p as [|c p IH]; [reflexivity|].
    cbn [PyStr.mem String.append] in *. apply Bool.orb_false_iff in Hp.
    destruct Hp as [Hc Hp]. now rewrite Hc, (IH Hp). }
  assert (Hmd : PyStr.endswith ("./" ++ p ++ ".md") ".md" = true).
  { rewrite <- append_assoc. apply endswith_append. }
  assert (Hlen : (4 <= String.length ("./" ++ p ++ ".md"))%nat).
  { rewrite !length_append. simpl. lia. }
  assert (Hone := sub_links_one_link self before label ("./" ++ p ++ ".md") rest
                    Hbefore Hlabel Hb Hpath Hmd Hlen).
  replace ("[" ++ label ++ "](./" ++ p ++ ".md)" ++ rest)
    with ("[" ++ label ++ "](" ++ ("./" ++ p ++ ".md") ++ ")" ++ rest).
  2:{ cbn [String.append]. do 2 f_equal. f_equal. cbn [String.append].
      do 2 f_equal. now rewrite !append_assoc. }
  rewrite Hone. f_equal. unfold replace_link.
  destruct (link_path_stripped p) as [Hs|Hs].
  - destruct p; [exact I | exact Hfirst].
  - cbv zeta in Hs. rewrite Hs.
    rewrite (transform_path_md_suffix self p H1 H2).
    now rewrite !append_assoc.
  - subst p. contradiction.
Qed.

Lemma link_target_consistent_without_override_witness :
  convert_links (init (config_with [] flatten) false)
                ("See [the guide](./guides/setup.md) first")
  = "See [the guide](" ++ transform_path (init (config_with [] flatten) false)
                                         "guides/setup.md" ++ ")"
    ++ convert_links (init (config_with [] flatten) false) " first".
Proof.
  apply (link_target_consistent_without_override
           (init (config_with [] flatten) false) "See " "the guide" "guides/setup" " first");
    try reflexivity.
  discriminate.
Defined.

(** *** The override rules and the links *)

(** C1 (failing input): with the override [x.md -> custom-name.md] the
    document [x.md] is synced and listed in the sidebar as
    [custom-name], but a link [./x.md] to it is rewritten to [x]: the
    extension is removed before the rules are looked up. *)
Theorem link_target_ignores_override :
  let x_md := mkPath "" ["docs"; "x.md"] in
  PyPath.relative_to x_md (docs_dir override_self) = Ok (mkPath "" ["x.md"])
  /\ transform_path override_self (PyPath.str (mkPath "" ["x.md"])) = "custom-name"
  /\ group_file override_self [] x_md = Ok [("root", [("X", "custom-name")])]
  /\ convert_links override_self "[X](./x.md)" = "[X](x)".
Proof. repeat split; reflexivity. Qed.

(** ** Discovered files *)

Lemma strip_parts_app (base rel : list string) :
  PyPath.strip_parts (base ++ rel)%list base = Some rel.
Proof.
  induction base as [|x base IH]; simpl.
  - now destruct rel.
  - now rewrite String.eqb_refl.
Qed.

(** A file found below the documentation directory is relative to it. *)
Lemma relative_to_docs_dir (self : WikiSync) (rel : list string) :
  PyPath.relative_to (mkPath (root (docs_dir self)) (tail (docs_dir self) ++ rel)%list)
                     (docs_dir self)
  = Ok (mkPath "" rel).
Proof.
  unfold PyPath.relative_to. simpl. now rewrite String.eqb_refl, strip_parts_app.
Qed.

Lemma rglob_doc_files (self : WikiSync) (w : World) :
  rglob self w = map (doc_file self) (rglob_md w).
Proof. reflexivity. Qed.

(** ** ExclusionFilter *)

Lemma match_reversed_snoc (a b : list string) (x y : string) :
  List.length a = List.length b ->
  PyPath.match_reversed (a ++ [x]) (b ++ [y])
  = PyPath.match_reversed a b && Fnmatch.fnmatchcase x y.
Proof.
  revert b. induction a as [|u a IH]; intros [|v b] Hlen; try discriminate Hlen; simpl.
  - now rewrite Bool.andb_true_r.
  - injection Hlen as Hlen. rewrite (IH b Hlen). now rewrite Bool.andb_assoc.
Qed.

Lemma match_reversed_rev (a b : list string) :
  List.length a = List.length b ->
  PyPath.match_reversed (rev a) (rev b) = all2 a b.
Proof.
  revert b. induction a as [|u a IH]; intros [|v b] Hlen; try discriminate Hlen; simpl.
  - reflexivity.
  - injection Hlen as Hlen.
    rewrite match_reversed_snoc by (now rewrite !length_rev).
    rewrite (IH b Hlen). apply Bool.andb_comm.
Qed.

(** The zip stops with the shorter list: what is beyond the pattern is
    not looked at. *)
Lemma match_reversed_app (a extra b : list string) :
  List.length a = List.length b ->
  PyPath.match_reversed (a ++ extra) b = PyPath.match_reversed a b.
Proof.
  revert b. induction a as [|u a IH]; intros [|v b] Hlen; try discriminate Hlen; simpl.
  - now destruct extra.
  - injection Hlen as Hlen. now rewrite (IH b Hlen).
Qed.

Lemma match_reversed_suffix (parts pats : list string) :
  (List.length pats <= List.length parts)%nat ->
  PyPath.match_reversed (rev parts) (rev pats)
  = all2 (skipn (List.length parts - List.length pats) parts) pats.
Proof.
  intros Hle.
  set (n := (List.length parts - List.length pats)%nat).
  rewrite <- (firstn_skipn n parts) at 1.
  assert (Hlen : List.length (skipn n parts) = List.length pats)
    by (rewrite length_skipn; subst n; lia).
  rewrite rev_app_distr, match_reversed_app by (now rewrite !length_rev).
  now apply match_reversed_rev.
Qed.

(** A pattern without root matches on the last components of the path. *)
Lemma match_relative_pattern (p : Path) (pattern : string) :
  root (PyPath.parse pattern) = "" ->
  tail (PyPath.parse pattern) <> [] ->
  PyPath.match_ p pattern
  = Ok (suffix_match (PyPath.parts p) (tail (PyPath.parse pattern))).
Proof.
  intros Hroot Htail. unfold PyPath.match_, suffix_match.
  unfold PyPath.parts at 1 3 4. rewrite Hroot.
  destruct (tail (PyPath.parse pattern)) as [|pat pats] eqn:E; [contradiction|].
  destruct (Nat.ltb_spec (List.length (PyPath.parts p)) (List.length (pat :: pats)))
    as [Hlt|Hge].
  - destruct (Nat.leb_spec (List.length (pat :: pats)) (List.length (PyPath.parts p)));
      [lia | reflexivity].
  - destruct (Nat.leb_spec (List.length (pat :: pats)) (List.length (PyPath.parts p)));
      [|lia].
    now rewrite match_reversed_suffix.
Qed.

(** The loop of [should_exclude], when every pattern is accepted by
    [match]. *)
Lemma any_match_existsb (file_path : Path) (patterns : list string) :
  Forall valid_pattern patterns ->
  any_match file_path patterns = Ok (existsb (path_matches file_path) patterns).
Proof.
  induction 1 as [|pattern rest Hvalid _ IH]; simpl; [reflexivity|].
  unfold path_matches at 1.
  assert (Hok : exists b, PyPath.match_ file_path pattern = Ok b).
  { unfold PyPath.match_. unfold valid_pattern in Hvalid.
    destruct (PyPath.parts (PyPath.parse pattern)); [contradiction|].
    destruct (root (PyPath.parse pattern)); [|destruct (negb _); [|destruct (negb _)]];
      [destruct (_ <? _)%nat|..]; eauto. }
  destruct Hok as [b Hb]. rewrite Hb. destruct b; [reflexivity | exact IH].
Qed.

(** A file that went through every pattern shows that [match] accepts
    them all. *)
Lemma any_match_false_valid (file_path : Path) (patterns : list string) :
  any_match file_path patterns = Ok false -> Forall valid_pattern patterns.
Proof.
  induction patterns as [|pattern rest IH]; intros H; [constructor|].
  cbn [any_match] in H.
  destruct (PyPath.match_ file_path pattern) as [[|]|e] eqn:Hm; try discriminate H.
  constructor; [|exact (IH H)].
  unfold valid_pattern. intros Hnil. unfold PyPath.match_ in Hm.
  rewrite Hnil in Hm. discriminate Hm.
Qed.

(** C5 (counterexample): with the pattern [x.md] the file [a/x.md] is
    excluded although the pattern does not match the string [a/x.md];
    with the pattern [a*] it is kept although the pattern matches that
    string. *)
Lemma should_exclude_not_string_glob :
  let exclude (patterns : list string) :=
    init (mkConfig (mkRepositoryConfig "o" "n")
                   (mkSyncConfig "./docs" "./wiki-temp" None (Some patterns))
                   None None None) false in
  let file := mkPath "" ["docs"; "a"; "x.md"] in
  let rel_path := mkPath "" ["a"; "x.md"] in
  PyPath.relative_to file (docs_dir (exclude [])) = Ok rel_path
  /\ should_exclude (exclude ["x.md"]) file = Ok true
  /\ spec_excluded ["x.md"] rel_path = false
  /\ should_exclude (exclude ["a*"]) file = Ok false
  /\ spec_excluded ["a*"] rel_path = true.
Proof. repeat split; reflexivity. Qed.

(** C5 (amended): a file is excluded exactly when [Path.match] accepts
    its full path for one of the configured patterns; a pattern without
    root is matched component by component against the last components
    of the path.  Without patterns nothing is excluded. *)
Theorem should_exclude_path_match (self : WikiSync) (file_path : Path)
        (patterns : list string) :
  get (excludePatterns (sync (config self))) [] = patterns ->
  Forall valid_pattern patterns ->
  should_exclude self file_path = Ok (existsb (path_matches file_path) patterns)
  /\ (patterns = [] -> should_exclude self file_path = Ok false)
  /\ (forall pattern,
        In pattern patterns ->
        root (PyPath.parse pattern) = "" ->
        path_matches file_path pattern
        = suffix_match (PyPath.parts file_path) (tail (PyPath.parse pattern))).
Proof.
  intros Hpats Hvalid. unfold should_exclude. rewrite Hpats. split; [|split].
  - now apply any_match_existsb.
  - intros ->. reflexivity.
  - intros pattern Hin Hroot. unfold path_matches.
    rewrite match_relative_pattern; [reflexivity | exact Hroot |].
    rewrite Forall_forall in Hvalid. specialize (Hvalid pattern Hin).
    unfold valid_pattern, PyPath.parts in Hvalid. now rewrite Hroot in Hvalid.
Qed.

Lemma should_exclude_path_match_witness :
  let self := init (mkConfig (mkRepositoryConfig "o" "n")
                             (mkSyncConfig "./docs" "./wiki-temp" None
                                           (Some ["drafts/*"; "*.tmp.md"]))
                             None None None) false in
  let file := mkPath "" ["docs"; "drafts"; "x.md"] in
  should_exclude self file = Ok true
  /\ path_matches file "drafts/*" = suffix_match ["docs"; "drafts"; "x.md"] ["drafts"; "*"].
Proof.
  intros self file.
  assert (Hvalid : Forall valid_pattern ["drafts/*"; "*.tmp.md"])
    by (repeat constructor; discriminate).
  destruct (should_exclude_path_match self file ["drafts/*"; "*.tmp.md"] eq_refl Hvalid)
    as (H1 & _ & H3).
  split.
  - exact H1.
  - apply (H3 "drafts/*"); [now left | reflexivity].
Defined.

(** ** Exclusion coverage *)

(** C4 (counterexample): [create_home_page] does not ask
    [should_exclude].  The excluded [intro.md] becomes the home page,
    and so does an excluded [README.md] found by the fallback. *)
Lemma home_page_from_excluded_file :
  let self := init (config_excluding ["intro.md"; "README.md"] None) false in
  let intro := mkPath "" ["docs"; "intro.md"] in
  let readme := mkPath "" ["README.md"] in
  let w1 := tree_world docs [(["intro.md"], "# Intro")] [] in
  let w2 := tree_world docs [(["guide.md"], "# Guide")] [(readme, "# Readme")] in
  should_exclude self intro = Ok true
  /\ create_home_page self w1
     = ([Log INFO "Creating Home.md from intro.md";
         ReadText intro;
         WriteText (mkPath "" ["wiki-temp"; "Home.md"]) "# Intro"], Ok true)
  /\ should_exclude self readme = Ok true
  /\ create_home_page self w2
     = ([Log INFO "Creating Home.md from README.md";
         ReadText readme;
         WriteText (mkPath "" ["wiki-temp"; "Home.md"]) "# Readme"], Ok true).
Proof. repeat split; reflexivity. Qed.

Lemma group_files_skip_excluded (self : WikiSync) (file : Path) :
  should_exclude self file = Ok true ->
  forall (before after : list Path) (files_by_dir : groups),
    group_files self files_by_dir (before ++ file :: after)
    = group_files self files_by_dir (before ++ after).
Proof.
  intros Hex before after. induction before as [|f before IH]; intros g; simpl.
  - unfold group_file. now rewrite Hex.
  - destruct (group_file self g f); [apply IH | reflexivity].
Qed.

(** C4 (amended): for a discovered file that [should_exclude] excludes,
    [sync_file] logs the exclusion, reads and writes nothing and
    reports success, and the file adds nothing to the groups of the
    sidebar.  (The home page is built without the exclusion filter.) *)
Theorem excluded_file_not_synced_nor_listed (self : WikiSync) (w : World)
        (rel : list string) :
  should_exclude self (doc_file self rel) = Ok true ->
  sync_file self w (doc_file self rel)
  = ([Log DEBUG ("Excluding " ++ PyPath.str (mkPath "" rel))], Ok true)
  /\ (forall files_by_dir,
        group_file self files_by_dir (doc_file self rel) = Ok files_by_dir)
  /\ (forall before after files_by_dir,
        group_files self files_by_dir (before ++ doc_file self rel :: after)
        = group_files self files_by_dir (before ++ after)).
Proof.
  intros Hex. split; [|split].
  - unfold sync_file, doc_file. rewrite relative_to_docs_dir.
    unfold doc_file in Hex. simpl. rewrite Hex. reflexivity.
  - intros g. unfold group_file. now rewrite Hex.
  - intros before after g. now apply group_files_skip_excluded.
Qed.

Lemma excluded_file_not_synced_nor_listed_witness :
  let self := init (config_excluding ["drafts/*"] None) false in
  let w := tree_world docs [(["drafts"; "x.md"], "draft"); (["a.md"], "text")] [] in
  sync_file self w (mkPath "" ["docs"; "drafts"; "x.md"])
  = ([Log DEBUG "Excluding drafts/x.md"], Ok true)
  /\ group_files self [] [mkPath "" ["docs"; "a.md"]; mkPath "" ["docs"; "drafts"; "x.md"]]
     = group_files self [] [mkPath "" ["docs"; "a.md"]].
Proof.
  intros self w.
  destruct (excluded_file_not_synced_nor_listed self w ["drafts"; "x.md"] eq_refl)
    as (H1 & _ & H3).
  split.
  - exact H1.
  - exact (H3 [mkPath "" ["docs"; "a.md"]] [] []).
Defined.

(** ** Sidebar *)

Lemma append_entry_keys (g : groups) (k : string) (entry : string * string) :
  map fst (append_entry g k entry) = add_key (map fst g) k.
Proof.
  unfold add_key. induction g as [|[k' fs] g IH]; simpl; [reflexivity|].
  rewrite (String.eqb_sym k k'). destruct (String.eqb k' k); simpl; [reflexivity|].
  rewrite IH. now destruct (existsb (String.eqb k) (map fst g)).
Qed.

Lemma group_file_keys (self : WikiSync) (f : Path) (g0 g1 : groups) :
  group_file self g0 f = Ok g1 ->
  map fst g1
  = if is_kept self f then add_key (map fst g0) (file_dir self f) else map fst g0.
Proof.
  unfold group_file, file_dir, is_kept.
  destruct (should_exclude self f) as [[|]|e]; try discriminate.
  - now intros [= <-].
  - destruct (PyPath.relative_to f (docs_dir self)) as [rel|e]; [|discriminate].
    intros [= <-]. apply append_entry_keys.
Qed.









(** ** The monad *)

Lemma bind_ok {A B : Type} (m : M A) (f : A -> M B) (a : A) :
  value m = Ok a ->
  trace (bind m f) = (trace m ++ trace (f a))%list /\ value (bind m f) = value (f a).
Proof.
  destruct m as [t r]. simpl. intros ->. simpl. now destruct (f a).
Qed.

(** ** No exception leaves the builders *)

Lemma create_home_page_returns (self : WikiSync) (w : World) :
  exists b, value (create_home_page self w) = Ok b.
Proof.
  unfold create_home_page.
  destruct (home_source_file self w) as [source_file|]; [|simpl; eauto].
  destruct (dry_run self); [simpl; eauto|].
  unfold read_text. simpl.
  destruct (read_ w source_file) as [text|e]; simpl; [|eauto].
  destruct (write_ w _ _) as [[]|e]; simpl; eauto.
Qed.

Lemma create_sidebar_returns (self : WikiSync) (w : World) :
  exists b, value (create_sidebar self w) = Ok b.
Proof.
  unfold create_sidebar.
  destruct (negb _); [simpl; eauto|].
  destruct (dry_run self); [simpl; eauto|].
  simpl. destruct (group_files self [] _) as [g|e]; simpl; [|eauto].
  destruct (write_ w _ _) as [[]|e]; simpl; eauto.
Qed.

(** With patterns that [match] accepts, no exception leaves [sync_file]
    for a discovered file. *)
Lemma sync_file_returns (self : WikiSync) (w : World) (rel : list string) :
  Forall valid_pattern (get (excludePatterns (sync (config self))) []) ->
  exists b, value (sync_file self w (doc_file self rel)) = Ok b.
Proof.
  intros Hvalid. unfold sync_file, doc_file. rewrite relative_to_docs_dir.
  unfold should_exclude. rewrite (any_match_existsb _ _ Hvalid). simpl.
  destruct (existsb _ _); [simpl; eauto|].
  destruct (dry_run self); [simpl; eauto|].
  simpl. destruct (read_ w _) as [text|e]; simpl; [|eauto].
  destruct (add_header self (now w) _ _) as [text'|e]; simpl; [|eauto].
  destruct (mkdir_ w _) as [[]|e]; simpl; [|eauto].
  destruct (write_ w _ _) as [[]|e]; simpl; eauto.
Qed.

(** ** The sync loop *)

Lemma sync_files_all (self : WikiSync) (w : World) (files : list Path) :
  (forall f, In f files -> exists b, value (sync_file self w f) = Ok b) ->
  forall success,
    trace (sync_files self w success files)
    = concat (map (fun f => trace (sync_file self w f)) files)
    /\ value (sync_files self w success files)
       = Ok (success && forallb (synced self w) files).
Proof.
  induction files as [|f files IH]; intros Hret success.
  - simpl. now rewrite Bool.andb_true_r.
  - destruct (Hret f (or_introl eq_refl)) as [b Hb].
    cbn [sync_files map concat forallb].
    destruct (bind_ok (sync_file self w f)
                (fun ok => sync_files self w (if negb ok then false else success) files)
                b Hb) as [Ht Hv].
    rewrite Ht, Hv.
    destruct (IH (fun g Hg => Hret g (or_intror Hg)) (if negb b then false else success))
      as [IHt IHv].
    rewrite IHt, IHv. unfold synced at 2. rewrite Hb.
    split; [reflexivity|]. now destruct b, success.
Qed.

Lemma sync_docs_value (self : WikiSync) (w : World) :
  value (sync_docs self w)
  = if negb (exists_ w (docs_dir self)) then Ok false
    else match value (clean_wiki self w) with
         | Raise e => Raise e
         | Ok _ => value (sync_files self w true (rglob self w))
         end.
Proof.
  unfold sync_docs. destruct (negb _); [reflexivity|].
  destruct (clean_wiki self w) as [t1 [[]|e]]; [|reflexivity].
  destruct (create_home_page_returns self w) as [b1 H1].
  destruct (create_sidebar_returns self w) as [b2 H2].
  destruct (create_home_page self w) as [t2 r2]. simpl in H1. subst r2.
  destruct (create_sidebar self w) as [t4 r4]. simpl in H2. subst r4.
  cbn. destruct (sync_files self w true (rglob self w)) as [t3 [s|e]]; reflexivity.
Qed.

Lemma sync_docs_trace (self : WikiSync) (w : World) (s : bool) :
  exists_ w (docs_dir self) = true ->
  value (clean_wiki self w) = Ok tt ->
  value (sync_files self w true (rglob self w)) = Ok s ->
  trace (sync_docs self w)
  = (trace (clean_wiki self w) ++ trace (create_home_page self w)
     ++ trace (sync_files self w true (rglob self w))
     ++ trace (create_sidebar self w))%list.
Proof.
  intros Hex Hclean Hloop. unfold sync_docs. rewrite Hex. simpl negb. cbv iota.
  destruct (create_home_page_returns self w) as [b1 H1].
  destruct (create_sidebar_returns self w) as [b2 H2].
  destruct (clean_wiki self w) as [t1 r1]. simpl in Hclean. subst r1.
  destruct (create_home_page self w) as [t2 r2]. simpl in H1. subst r2.
  destruct (sync_files self w true (rglob self w)) as [t3 r3]. simpl in Hloop. subst r3.
  destruct (create_sidebar self w) as [t4 r4]. simpl in H2. subst r4.
  cbn. now rewrite app_nil_r.
Qed.

(** C9: without the documentation directory [sync_docs] fails at once,
    before any file is looked at.  With it (the exclusion patterns being
    accepted by [match], the cleaning done), every discovered file goes
    through [sync_file], in order, whatever the earlier files gave, and
    the result is true exactly when every file gave true.  A file whose
    read fails, or whose write fails, gives false; when a discovered
    file gave false the run still goes through every file and its result
    is false; after a file that gave false the loop goes on with the
    files that remain. *)
Theorem sync_docs_best_effort (self : WikiSync) (w : World) :
  (exists_ w (docs_dir self) = false ->
   sync_docs self w
   = ([Log ERROR ("Documentation directory not found: " ++ PyPath.str (docs_dir self))],
      Ok false))
  /\ (exists_ w (docs_dir self) = true ->
      Forall valid_pattern (get (excludePatterns (sync (config self))) []) ->
      value (clean_wiki self w) = Ok tt ->
      trace (sync_docs self w)
      = (trace (clean_wiki self w) ++ trace (create_home_page self w)
         ++ concat (map (fun f => trace (sync_file self w f)) (rglob self w))
         ++ trace (create_sidebar self w))%list
      /\ value (sync_docs self w) = Ok (forallb (synced self w) (rglob self w)))
  /\ (forall rel e,
        dry_run self = false ->
        should_exclude self (doc_file self rel) = Ok false ->
        read_ w (doc_file self rel) = Raise e ->
        sync_file self w (doc_file self rel)
        = ([Log INFO (syncing_message self (mkPath "" rel));
            ReadText (doc_file self rel);
            Log ERROR ("Failed to sync " ++ PyPath.str (doc_file self rel) ++ ": "
                       ++ exn_str e)],
           Ok false))
  /\ (forall rel text text' e,
        dry_run self = false ->
        should_exclude self (doc_file self rel) = Ok false ->
        read_ w (doc_file self rel) = Ok text ->
        add_header self (now w) (convert_links self text) (PyPath.str (mkPath "" rel))
        = Ok text' ->
        mkdir_ w (PyPath.parent (wiki_file_of self (mkPath "" rel))) = Ok tt ->
        write_ w (wiki_file_of self (mkPath "" rel)) text' = Raise e ->
        sync_file self w (doc_file self rel)
        = ([Log INFO (syncing_message self (mkPath "" rel));
            ReadText (doc_file self rel);
            Mkdir (PyPath.parent (wiki_file_of self (mkPath "" rel)));
            WriteText (wiki_file_of self (mkPath "" rel)) text';
            Log ERROR ("Failed to sync " ++ PyPath.str (doc_file self rel) ++ ": "
                       ++ exn_str e)],
           Ok false))
  /\ (forall rel,
        exists_ w (docs_dir self) = true ->
        value (clean_wiki self w) = Ok tt ->
        In rel (rglob_md w) ->
        should_exclude self (doc_file self rel) = Ok false ->
        value (sync_file self w (doc_file self rel)) = Ok false ->
        trace (sync_docs self w)
        = (trace (clean_wiki self w) ++ trace (create_home_page self w)
           ++ concat (map (fun f => trace (sync_file self w f)) (rglob self w))
           ++ trace (create_sidebar self w))%list
        /\ value (sync_docs self w) = Ok false)
  /\ (forall f rest success,
        value (sync_file self w f) = Ok false ->
        trace (sync_files self w success (f :: rest))
        = (trace (sync_file self w f) ++ trace (sync_files self w false rest))%list
        /\ value (sync_files self w success (f :: rest))
           = value (sync_files self w false rest)).
Proof.
  assert (Hloop :
            exists_ w (docs_dir self) = true ->
            Forall valid_pattern (get (excludePatterns (sync (config self))) []) ->
            value (clean_wiki self w) = Ok tt ->
            trace (sync_docs self w)
            = (trace (clean_wiki self w) ++ trace (create_home_page self w)
               ++ concat (map (fun f => trace (sync_file self w f)) (rglob self w))
               ++ trace (create_sidebar self w))%list
            /\ value (sync_docs self w) = Ok (forallb (synced self w) (rglob self w))).
  { intros Hex Hvalid Hclean.
    assert (Hret : forall f, In f (rglob self w) ->
                             exists b, value (sync_file self w f) = Ok b).
    { intros f Hin. rewrite rglob_doc_files in Hin. apply in_map_iff in Hin.
      destruct Hin as (rel & <- & _). now apply sync_file_returns. }
    destruct (sync_files_all self w (rglob self w) Hret true) as [Ht Hv].
    split.
    - rewrite (sync_docs_trace self w _ Hex Hclean Hv). now rewrite Ht.
    - rewrite sync_docs_value, Hex, Hclean. exact Hv. }
  split; [|split; [|split; [|split; [|split]]]].
  - intros Hex. unfold sync_docs. now rewrite Hex.
  - exact Hloop.
  - intros rel e Hdry Hex Hread. unfold sync_file, doc_file in *.
    rewrite relative_to_docs_dir, Hex, Hdry. simpl. rewrite Hread. reflexivity.
  - intros rel text text' e Hdry Hex Hread Hhead Hmk Hwrite.
    unfold sync_file, doc_file in *.
    rewrite relative_to_docs_dir, Hex, Hdry. simpl. rewrite Hread. simpl.
    rewrite Hhead. simpl. unfold wiki_file_of in Hmk, Hwrite.
    rewrite Hmk. simpl. rewrite Hwrite. reflexivity.
  - intros rel Hex Hclean Hin Hkept Hfalse.
    destruct (Hloop Hex (any_match_false_valid _ _ Hkept) Hclean) as [Ht Hv].
    split; [exact Ht|]. rewrite Hv. f_equal.
    apply Bool.not_true_is_false. intros Hall.
    rewrite forallb_forall in Hall.
    specialize (Hall (doc_file self rel)).
    rewrite rglob_doc_files in Hall. specialize (Hall (in_map _ _ _ Hin)).
    unfold synced in Hall. rewrite Hfalse in Hall. discriminate Hall.
  - intros f rest success Hf. cbn [sync_files].
    exact (bind_ok (sync_file self w f)
             (fun ok => sync_files self w (if negb ok then false else success) rest)
             false Hf).
Qed.

Lemma sync_docs_best_effort_witness :
  let self := init get_default_config false in
  let b_md := mkPath "" ["docs"; "b.md"] in
  let w := with_failures
             (tree_world docs [(["a.md"], "A"); (["b.md"], "B"); (["c.md"], "C")] [])
             [b_md] [] in
  value (sync_docs self w) = Ok false
  /\ trace (sync_docs self w)
     = ([Log WARNING "No source file found for Home.md"]
        ++ concat (map (fun f => trace (sync_file self w f)) (rglob self w))
        ++ trace (create_sidebar self w))%list
  /\ synced self w (mkPath "" ["docs"; "c.md"]) = true
  /\ value (sync_file self w b_md) = Ok false.
Proof.
  intros self b_md w.
  destruct (sync_docs_best_effort self w) as (_ & H2 & H3 & _ & _ & _).
  destruct (H2 eq_refl (Forall_nil _) eq_refl) as [Ht Hv].
  split; [exact Hv | split; [exact Ht | split; [reflexivity|]]].
  exact (f_equal value
           (H3 ["b.md"] (OSError "Permission denied") eq_refl eq_refl eq_refl)).
Defined.


(** The home page and the sidebar both fail to be written and the
    result of [sync_docs] is true. *)
Example sync_docs_true_when_home_and_sidebar_fail :
  let self := init get_default_config false in
  let w := with_failures (tree_world docs [(["intro.md"], "# Intro")] []) []
             [mkPath "" ["wiki-temp"; "Home.md"]; mkPath "" ["wiki-temp"; "_Sidebar.md"]] in
  value (create_home_page self w) = Ok false
  /\ value (create_sidebar self w) = Ok false
  /\ value (sync_docs self w) = Ok true.
Proof. repeat split; reflexivity. Qed.

(** ** Dry run *)

Lemma bind_only_logs {A B : Type} (m : M A) (f : A -> M B) :
  only_logs (trace m) ->
  (forall a, only_logs (trace (f a))) ->
  only_logs (trace (bind m f)).
Proof.
  unfold only_logs. destruct m as [t [a|e]]; simpl; intros Hm Hf; [|exact Hm].
  specialize (Hf a). destruct (f a) as [t' r]. simpl in *.
  now rewrite forallb_app, Hm, Hf.
Qed.

Section DryRun.

Variable self : WikiSync.
Hypothesis Hdry : dry_run self = true.

Lemma dry_sync_file_logs (w : World) (f : Path) : only_logs (trace (sync_file self w f)).
Proof.
  unfold sync_file, only_logs.
  destruct (PyPath.relative_to f (docs_dir self)) as [rel|e]; [|reflexivity].
  simpl. destruct (should_exclude self f) as [[|]|e]; try reflexivity.
  simpl. now rewrite Hdry.
Qed.

Lemma dry_sync_files_logs (w : World) (files : list Path) :
  forall success, only_logs (trace (sync_files self w success files)).
Proof.
  induction files as [|f files IH]; intros success; [reflexivity|].
  cbn [sync_files]. apply bind_only_logs; [apply dry_sync_file_logs|].
  intros ok. apply IH.
Qed.

Lemma dry_clean_wiki_logs (w : World) : only_logs (trace (clean_wiki self w)).
Proof.
  unfold clean_wiki. rewrite Hdry. now destruct (get _ false).
Qed.

Lemma dry_create_home_page_logs (w : World) :
  only_logs (trace (create_home_page self w)).
Proof.
  unfold create_home_page. rewrite Hdry. now destruct (home_source_file self w).
Qed.

Lemma dry_create_sidebar_logs (w : World) :
  only_logs (trace (create_sidebar self w)).
Proof.
  unfold create_sidebar. rewrite Hdry. now destruct (negb _).
Qed.

Lemma dry_sync_docs_logs (w : World) : only_logs (trace (sync_docs self w)).
Proof.
  unfold sync_docs. destruct (negb _); [reflexivity|].
  apply bind_only_logs; [apply dry_clean_wiki_logs | intros _].
  apply bind_only_logs; [apply dry_create_home_page_logs | intros _].
  apply bind_only_logs; [apply dry_sync_files_logs | intros success].
  apply bind_only_logs; [apply dry_create_sidebar_logs | intros _].
  reflexivity.
Qed.

Lemma dry_run_logs (w : World) : only_logs (trace (run self w)).
Proof.
  unfold run, setup_wiki_repo, push_changes. rewrite Hdry.
  repeat (apply bind_only_logs; [reflexivity | intros _]).
  apply bind_only_logs; [reflexivity | intros [|]]; [|reflexivity].
  apply bind_only_logs; [apply dry_sync_docs_logs | intros [|]]; [|reflexivity].
  apply bind_only_logs; [reflexivity | intros [|]]; reflexivity.
Qed.

(** A dry run looks at the world only for the files that exist. *)
Lemma dry_sync_file_same (w w' : World) (f : Path) :
  sync_file self w f = sync_file self w' f.
Proof.
  unfold sync_file.
  destruct (PyPath.relative_to f (docs_dir self)) as [rel|e]; [|reflexivity].
  simpl. destruct (should_exclude self f) as [[|]|e]; try reflexivity.
  simpl. now rewrite Hdry.
Qed.

Lemma dry_sync_files_same (w w' : World) (files : list Path) :
  forall success, sync_files self w success files = sync_files self w' success files.
Proof.
  induction files as [|f files IH]; intros success; [reflexivity|].
  cbn [sync_files]. rewrite (dry_sync_file_same w w' f).
  destruct (sync_file self w' f) as [t [ok|e]]; [|reflexivity].
  simpl. now rewrite IH.
Qed.

Lemma dry_sync_docs_same (w w' : World) :
  (forall p, exists_ w p = exists_ w' p) ->
  rglob_md w = rglob_md w' ->
  sync_docs self w = sync_docs self w'.
Proof.
  intros Hex Hglob. unfold sync_docs, clean_wiki, create_home_page, create_sidebar,
    home_source_file, rglob.
  rewrite Hdry, Hglob, !Hex.
  now rewrite (dry_sync_files_same w w').
Qed.

Lemma dry_run_same (w w' : World) :
  (forall p, exists_ w p = exists_ w' p) ->
  rglob_md w = rglob_md w' ->
  run self w = run self w'.
Proof.
  intros Hex Hglob. unfold run, setup_wiki_repo, push_changes.
  now rewrite Hdry, (dry_sync_docs_same w w' Hex Hglob).
Qed.

End DryRun.

(** C7 (counterexample): two documentation trees that differ in the
    content of [intro.md] give the same dry run, and real runs that write
    different files: the dry run does not read the documents, so that
    neither the rewriting of their content nor what is to be written can
    be in its report. *)
Lemma dry_run_skips_content :
  let w1 := tree_world docs [(["intro.md"], "[a](./one.md)")] [] in
  let w2 := tree_world docs [(["intro.md"], "[a](./two.md)")] [] in
  run (init get_default_config true) w1 = run (init get_default_config true) w2
  /\ filter is_write (trace (run (init get_default_config false) w1))
     <> filter is_write (trace (run (init get_default_config false) w2))
  /\ ~ dry_run_reports_plan get_default_config.
Proof.
  intros w1 w2.
  assert (Hsame : run (init get_default_config true) w1
                  = run (init get_default_config true) w2) by reflexivity.
  assert (Hdiff : filter is_write (trace (run (init get_default_config false) w1))
                  <> filter is_write (trace (run (init get_default_config false) w2)))
    by (vm_compute; discriminate).
  split; [exact Hsame | split; [exact Hdiff|]].
  intros [report Hreport]. apply Hdiff.
  rewrite <- (Hreport w1), <- (Hreport w2). now rewrite Hsame.
Qed.

(** C7 (amended): a dry run only writes log records: it changes no file,
    starts no subprocess and reads no document; it depends on the world
    only through the files that exist.  For a file that is not excluded
    it computes the destination with [transform_path] and logs it, in
    the message with which the real run starts on that file. *)
Theorem dry_run_only_logs (self : WikiSync) (w : World) :
  dry_run self = true ->
  only_logs (trace (run self w))
  /\ filter is_write (trace (run self w)) = []
  /\ filter is_subprocess (trace (run self w)) = []
  /\ (forall w',
        (forall p, exists_ w p = exists_ w' p) ->
        rglob_md w = rglob_md w' ->
        run self w = run self w')
  /\ (forall rel,
        should_exclude self (doc_file self rel) = Ok false ->
        sync_file self w (doc_file self rel)
        = ([Log INFO (syncing_message self (mkPath "" rel));
            Log INFO ("[DRY RUN] Would copy " ++ PyPath.str (doc_file self rel) ++ " to "
                      ++ PyPath.str (wiki_file_of self (mkPath "" rel)))],
           Ok true)
        /\ hd_error (trace (sync_file (real self) w (doc_file self rel)))
           = Some (Log INFO (syncing_message self (mkPath "" rel)))).
Proof.
  intros Hdry.
  assert (Hlogs := dry_run_logs self Hdry w).
  assert (Hnone : forall (p : event -> bool) (t : list event),
             (forall e, is_log e = true -> p e = false) ->
             only_logs t -> filter p t = []).
  { intros p t Hp. unfold only_logs. induction t as [|e t IH]; simpl; [reflexivity|].
    intros H. apply Bool.andb_true_iff in H. destruct H as [He Ht].
    now rewrite (Hp e He), IH. }
  split; [exact Hlogs | split; [|split; [|split]]].
  - apply Hnone; [|exact Hlogs]. now intros [].
  - apply Hnone; [|exact Hlogs]. now intros [].
  - intros w'. now apply dry_run_same.
  - intros rel Hex. split.
    + unfold sync_file, doc_file in *. rewrite relative_to_docs_dir, Hex, Hdry.
      reflexivity.
    + unfold sync_file, doc_file, real, should_exclude in *. simpl.
      rewrite relative_to_docs_dir, Hex. simpl.
      now destruct (try_except _ _).
Qed.

Lemma dry_run_only_logs_witness :
  let self := init get_default_config true in
  let w := tree_world docs [(["intro.md"], "[a](./one.md)"); (["a"; "b.md"], "B")] [] in
  filter is_write (trace (run self w)) = []
  /\ filter is_subprocess (trace (run self w)) = []
  /\ sync_file self w (mkPath "" ["docs"; "a"; "b.md"])
     = ([Log INFO "Syncing a/b.md -> a/b.md";
         Log INFO "[DRY RUN] Would copy docs/a/b.md to wiki-temp/a/b.md"], Ok true).
Proof.
  intros self w.
  destruct (dry_run_only_logs self w eq_refl) as (_ & H2 & H3 & _ & H5).
  split; [exact H2 | split; [exact H3|]].
  exact (proj1 (H5 ["a"; "b.md"] eq_refl)).
Defined.

(** * Further properties *)

(** ** PathMapper: overrides and flatten mode *)

(** The first rule, in the configured order, whose source is the path
    decides the result, whatever the transform mode and whatever rules
    come after it. *)
Theorem transform_path_first_override
        (self : WikiSync) (rel_path : string)
        (before after : list CustomMapping) (m : CustomMapping) :
  get (customMappings (mapping_config self)) [] = (before ++ m :: after)%list ->
  Forall (fun r => source r <> rel_path) before ->
  source m = rel_path ->
  transform_path self rel_path = PyStr.replace (target m) ".md" "".
Proof.
  intros Hrules Hbefore Hm. apply transform_path_override.
  rewrite Hrules. now apply find_mapping_first.
Qed.

Lemma transform_path_first_override_witness :
  transform_path
    (init (config_with [mkCustomMapping "a.md" "first";
                        mkCustomMapping "x.md" "second.md";
                        mkCustomMapping "x.md" "third.md"] flatten) false)
    "x.md"
  = "second".
Proof.
  apply (transform_path_first_override
           (init (config_with [mkCustomMapping "a.md" "first";
                               mkCustomMapping "x.md" "second.md";
                               mkCustomMapping "x.md" "third.md"] flatten) false)
           "x.md" [mkCustomMapping "a.md" "first"] [mkCustomMapping "x.md" "third.md"]
           (mkCustomMapping "x.md" "second.md")).
  - reflexivity.
  - repeat constructor. discriminate.
  - reflexivity.
Defined.

Lemma mem_append (c : ascii) (a b : string) :
  PyStr.mem c (a ++ b) = PyStr.mem c a || PyStr.mem c b.
Proof.
  induction a as [|x a IH]; [reflexivity|].
  cbn [String.append PyStr.mem]. now rewrite IH, Bool.orb_assoc.
Qed.

(** Removing occurrences brings no character in. *)
Lemma mem_replace_scan_removed (c : ascii) (old s : string) :
  PyStr.mem c s = false ->
  forall skip, PyStr.mem c (PyStr.replace_scan old "" skip s) = false.
Proof.
  induction s as [|x s IH]; intros H skip; [reflexivity|].
  cbn [PyStr.mem] in H. apply Bool.orb_false_iff in H. destruct H as [Hx Hs].
  cbn [PyStr.replace_scan]. destruct skip as [|k]; [|now apply IH].
  destruct (PyStr.startswith (String x s) old).
  - cbn [String.append]. now apply IH.
  - cbn [PyStr.mem]. now rewrite Hx, IH.
Qed.

(** Replacing a character by a string without it leaves none. *)
Lemma mem_replace_char (c : ascii) (new s : string) :
  PyStr.mem c new = false ->
  PyStr.mem c (PyStr.replace_scan (String c "") new 0 s) = false.
Proof.
  intros Hnew. induction s as [|x s IH]; [reflexivity|].
  cbn [PyStr.replace_scan PyStr.startswith String.length Nat.sub].
  destruct (Ascii.eqb c x) eqn:E; cbn [andb].
  - now rewrite mem_append, Hnew, IH.
  - cbn [PyStr.mem]. now rewrite E, IH.
Qed.

(** Flatten mode gives a flat name: when no override applies and the
    separator has no slash, the destination has no slash. *)
Theorem transform_path_flatten_no_slash (self : WikiSync) (rel_path : string) :
  let transform := get (pathTransform (mapping_config self)) empty_transform in
  find_mapping (get (customMappings (mapping_config self)) []) rel_path = None ->
  get_eqb (type transform) "flatten" = true ->
  PyStr.mem "/" (get (separator transform) "-") = false ->
  PyStr.mem "/" (transform_path self rel_path) = false.
Proof.
  intros transform Hnone Hflat Hsep. unfold transform_path.
  rewrite Hnone. fold transform. rewrite Hflat.
  unfold PyStr.replace. apply mem_replace_scan_removed.
  now apply mem_replace_char.
Qed.

Lemma transform_path_flatten_no_slash_witness :
  PyStr.mem "/" (transform_path (init (config_with [] flatten) false) "a/b/c.md") = false.
Proof.
  apply (transform_path_flatten_no_slash (init (config_with [] flatten) false) "a/b/c.md");
    reflexivity.
Defined.

Lemma contains_char (c : ascii) (s : string) :
  PyStr.contains s (String c "") = PyStr.mem c s.
Proof.
  induction s as [|x s IH]; [reflexivity|].
  cbn [PyStr.contains PyStr.startswith PyStr.mem].
  now rewrite IH, Bool.andb_true_r.
Qed.

(** Flatten mode does not tell a separator of the path from the
    configured separator: when no override applies to either, a path and
    the path with its slashes already replaced get the same destination
    (the destination file of [sync_file] is named after it, so the later
    of two such documents overwrites the earlier). *)
Theorem transform_path_flatten_collision (self : WikiSync) (rel_path : string) :
  let transform := get (pathTransform (mapping_config self)) empty_transform in
  let separator := get (separator transform) "-" in
  let flat := PyStr.replace rel_path "/" separator in
  find_mapping (get (customMappings (mapping_config self)) []) rel_path = None ->
  find_mapping (get (customMappings (mapping_config self)) []) flat = None ->
  get_eqb (type transform) "flatten" = true ->
  PyStr.mem "/" separator = false ->
  transform_path self flat = transform_path self rel_path.
Proof.
  intros transform separator flat H1 H2 Hflat Hsep.
  unfold transform_path. rewrite H1, H2. fold transform. rewrite Hflat.
  fold separator. f_equal. unfold flat, PyStr.replace.
  apply replace_scan_absent. rewrite contains_char. now apply mem_replace_char.
Qed.

Lemma transform_path_flatten_collision_witness :
  let self := init (config_with [] flatten) false in
  transform_path self "guides-setup.md" = transform_path self "guides/setup.md".
Proof.
  intros self.
  exact (transform_path_flatten_collision self "guides/setup.md"
           eq_refl eq_refl eq_refl eq_refl).
Defined.

(** ** Link rewriting *)

Lemma convert_links_no_link_witness :
  convert_links (init get_default_config false)
                "[a](https://example.org/page) [b](#anchor) [c](notes.txt)"
  = "[a](https://example.org/page) [b](#anchor) [c](notes.txt)".
Proof.
  apply (convert_links_no_link (init get_default_config false)). reflexivity.
Defined.

(** ** Header injection: [WikiSync.add_header] *)

(** A template without braces is its own header. *)
Lemma format_no_brace (template source date : string) :
  PyStr.mem "{" template = false ->
  PyStr.mem "}" template = false ->
  format template source date = Ok template.
Proof.
  unfold format. induction template as [|c t IH]; intros Ho Hc; [reflexivity|].
  cbn [PyStr.mem] in Ho, Hc.
  apply Bool.orb_false_iff in Ho. destruct Ho as [Ho Ho'].
  apply Bool.orb_false_iff in Hc. destruct Hc as [Hc Hc'].
  cbn [format_scan]. rewrite Ascii.eqb_sym, Ho, Ascii.eqb_sym, Hc.
  now rewrite (IH Ho' Hc').
Qed.

Lemma add_header_ends_with_content (self : WikiSync) (now content source_file out : string) :
  add_header self now content source_file = Ok out ->
  exists header, out = header ++ content.
Proof.
  unfold add_header.
  destruct (negb _); [intros [= <-]; now exists ""|].
  destruct (get (enabled _) true); [|intros [= <-]; now exists ""].
  destruct (format _ _ _) as [header|e]; [|discriminate].
  intros [= <-]. exists (header ++ nl ++ nl). now rewrite !append_assoc.
Qed.

(** Header injection leaves the content whole: what [add_header]
    returns ends with the content it was given; with the source header
    or the custom headers switched off it is the content; with a
    template without braces it is the template, an empty line and the
    content. *)
Theorem add_header_keeps_content (self : WikiSync) (now content source_file : string) :
  (forall out,
      add_header self now content source_file = Ok out ->
      exists header, out = header ++ content)
  /\ (get (addSourceHeader (content_config self)) true = false ->
      add_header self now content source_file = Ok content)
  /\ (get (enabled (get (customHeaders (content_config self)) empty_headers)) true = false ->
      add_header self now content source_file = Ok content)
  /\ (forall t,
        get (addSourceHeader (content_config self)) true = true ->
        get (enabled (get (customHeaders (content_config self)) empty_headers)) true = true ->
        get (template (get (customHeaders (content_config self)) empty_headers))
            default_template = t ->
        PyStr.mem "{" t = false ->
        PyStr.mem "}" t = false ->
        add_header self now content source_file = Ok (header_block t ++ content)).
Proof.
  split; [|split; [|split]]; unfold add_header, header_block, default_template.
  - fold (add_header self now content source_file).
    intros out. apply add_header_ends_with_content.
  - now intros ->.
  - intros ->. now destruct (negb _).
  - intros t Hon Hen Ht Ho Hc. rewrite Hon, Hen, Ht. cbn [negb].
    rewrite (format_no_brace t _ _ Ho Hc). now rewrite !append_assoc.
Qed.

Lemma add_header_keeps_content_witness :
  let self := init (config_with_headers
                      (Some (mkCustomHeaders None (Some "<!-- generated -->")))) false in
  add_header self "2024-01-01 00:00:00" "# Title" "a.md"
  = Ok (header_block "<!-- generated -->" ++ "# Title")
  /\ exists header,
       header_block "<!-- generated -->" ++ "# Title" = header ++ "# Title".
Proof.
  intros self.
  destruct (add_header_keeps_content self "2024-01-01 00:00:00" "# Title" "a.md")
    as (H1 & _ & _ & H4).
  assert (H := H4 "<!-- generated -->" eq_refl eq_refl eq_refl eq_refl eq_refl).
  split; [exact H | exact (H1 _ H)].
Defined.

(** With the built-in template the header names the source file, as it
    is written: braces in the path are not read as fields, and the date
    is not used. *)
Theorem add_header_default_template (self : WikiSync) (now content source_file : string) :
  get (addSourceHeader (content_config self)) true = true ->
  get (enabled (get (customHeaders (content_config self)) empty_headers)) true = true ->
  template (get (customHeaders (content_config self)) empty_headers) = None ->
  add_header self now content source_file
  = Ok (header_block ("<!-- Generated from: " ++ source_file ++ " -->") ++ content).
Proof.
  intros Hon Hen Ht. unfold add_header, header_block.
  rewrite Hon, Hen, Ht. cbn [negb get]. unfold format.
  cbn. now rewrite !append_assoc.
Qed.

Lemma add_header_default_template_witness :
  add_header (init get_default_config false) "2024-01-01 00:00:00" "# T" "a/{b}.md"
  = Ok (header_block ("<!-- Generated from: " ++ "a/{b}.md" ++ " -->") ++ "# T").
Proof.
  apply (add_header_default_template (init get_default_config false)); reflexivity.
Defined.

(** ** SyncPlanner: what [sync_file] writes *)

(** A synced document is its rewritten content under the header: the
    links of the content are rewritten first and the header is put on
    top afterwards, so that a link in the header template is left as it
    is.  The file is read once, the directory of the destination is
    made, and the destination is written once. *)
Theorem sync_file_writes_header_and_rewritten_content
        (self : WikiSync) (w : World) (rel : list string) (text out : string) :
  dry_run self = false ->
  should_exclude self (doc_file self rel) = Ok false ->
  read_ w (doc_file self rel) = Ok text ->
  add_header self (now w) (convert_links self text) (PyPath.str (mkPath "" rel)) = Ok out ->
  mkdir_ w (PyPath.parent (wiki_file_of self (mkPath "" rel))) = Ok tt ->
  write_ w (wiki_file_of self (mkPath "" rel)) out = Ok tt ->
  sync_file self w (doc_file self rel)
  = ([Log INFO (syncing_message self (mkPath "" rel));
      ReadText (doc_file self rel);
      Mkdir (PyPath.parent (wiki_file_of self (mkPath "" rel)));
      WriteText (wiki_file_of self (mkPath "" rel)) out],
     Ok true)
  /\ exists header, out = header ++ convert_links self text.
Proof.
  intros Hdry Hex Hread Hhead Hmk Hwrite. split.
  - unfold sync_file, doc_file, wiki_file_of in *.
    rewrite relative_to_docs_dir, Hex, Hdry. simpl. rewrite Hread. simpl.
    rewrite Hhead. simpl. rewrite Hmk. simpl. rewrite Hwrite. reflexivity.
  - exact (add_header_ends_with_content self _ _ _ out Hhead).
Qed.

Lemma sync_file_writes_header_and_rewritten_content_witness :
  let self := init (config_with_headers
                      (Some (mkCustomHeaders None (Some "See [index](index.md)")))) false in
  let w := tree_world docs [(["a.md"], "Go to [b](./b.md)")] [] in
  sync_file self w (mkPath "" ["docs"; "a.md"])
  = ([Log INFO "Syncing a.md -> a.md";
      ReadText (mkPath "" ["docs"; "a.md"]);
      Mkdir (mkPath "" ["wiki-temp"]);
      WriteText (mkPath "" ["wiki-temp"; "a.md"])
        ("See [index](index.md)" ++ nl ++ nl ++ "Go to [b](b)")],
     Ok true).
Proof.
  intros self w.
  exact (proj1 (sync_file_writes_header_and_rewritten_content
                  self w ["a.md"] "Go to [b](./b.md)"
                  ("See [index](index.md)" ++ nl ++ nl ++ "Go to [b](b)")
                  eq_refl eq_refl eq_refl eq_refl eq_refl eq_refl)).
Defined.

(** A header template that cannot be filled in fails the file after it
    is read: nothing is written for it and [sync_file] answers False. *)
Theorem sync_file_header_error
        (self : WikiSync) (w : World) (rel : list string) (text : string) (e : exn) :
  dry_run self = false ->
  should_exclude self (doc_file self rel) = Ok false ->
  read_ w (doc_file self rel) = Ok text ->
  add_header self (now w) (convert_links self text) (PyPath.str (mkPath "" rel)) = Raise e ->
  sync_file self w (doc_file self rel)
  = ([Log INFO (syncing_message self (mkPath "" rel));
      ReadText (doc_file self rel);
      Log ERROR ("Failed to sync " ++ PyPath.str (doc_file self rel) ++ ": " ++ exn_str e)],
     Ok false).
Proof.
  intros Hdry Hex Hread Hhead.
  unfold sync_file, doc_file in *.
  rewrite relative_to_docs_dir, Hex, Hdry. simpl. rewrite Hread. simpl.
  rewrite Hhead. reflexivity.
Qed.

Lemma sync_file_header_error_witness :
  let self := init (config_with_headers
                      (Some (mkCustomHeaders None (Some "From {file}")))) false in
  let w := tree_world docs [(["a.md"], "text")] [] in
  sync_file self w (mkPath "" ["docs"; "a.md"])
  = ([Log INFO "Syncing a.md -> a.md";
      ReadText (mkPath "" ["docs"; "a.md"]);
      Log ERROR "Failed to sync docs/a.md: 'file'"],
     Ok false).
Proof.
  intros self w.
  exact (sync_file_header_error self w ["a.md"] "text" (KeyError "file")
           eq_refl eq_refl eq_refl eq_refl).
Defined.

(** ** SidebarBuilder: the entries *)

(** The destination a document is synced to is the target of its
    sidebar entry: for a discovered file that is not excluded, the
    grouping loop adds one entry whose target is [transform_path] of the
    relative path, the name [sync_file] announces and writes to. *)
Theorem sidebar_target_is_sync_destination
        (self : WikiSync) (w : World) (rel : list string) (g : groups) :
  should_exclude self (doc_file self rel) = Ok false ->
  let wiki_name := transform_path self (PyPath.str (mkPath "" rel)) in
  group_file self g (doc_file self rel)
  = Ok (append_entry g (file_dir self (doc_file self rel))
          (PyStr.title (PyStr.replace (PyPath.stem (doc_file self rel)) "-" " "),
           wiki_name))
  /\ hd_error (trace (sync_file self w (doc_file self rel)))
     = Some (Log INFO ("Syncing " ++ PyPath.str (mkPath "" rel) ++ " -> "
                       ++ wiki_name ++ ".md"))
  /\ wiki_file_of self (mkPath "" rel)
     = PyPath.joinpath (wiki_dir self) (wiki_name ++ ".md").
Proof.
  intros Hex wiki_name. split; [|split].
  - unfold group_file, file_dir, doc_file in *.
    now rewrite Hex, relative_to_docs_dir.
  - unfold sync_file, doc_file in *. rewrite relative_to_docs_dir, Hex. simpl.
    destruct (dry_run self); [reflexivity|].
    now destruct (try_except _ _).
  - reflexivity.
Qed.

Lemma sidebar_target_is_sync_destination_witness :
  let self := init (config_with [mkCustomMapping "guides/setup.md" "Setup-Guide.md"]
                                flatten) false in
  let w := tree_world docs [(["guides"; "setup.md"], "text")] [] in
  group_file self [] (mkPath "" ["docs"; "guides"; "setup.md"])
  = Ok [("guides", [("Setup", "Setup-Guide")])]
  /\ hd_error (trace (sync_file self w (mkPath "" ["docs"; "guides"; "setup.md"])))
     = Some (Log INFO "Syncing guides/setup.md -> Setup-Guide.md").
Proof.
  intros self w.
  destruct (sidebar_target_is_sync_destination self w ["guides"; "setup.md"] [] eq_refl)
    as (H1 & H2 & _).
  split; [exact H1 | exact H2].
Defined.

Lemma append_entry_total (g : groups) (k : string) (entry : string * string) :
  total_entries (append_entry g k entry) = S (total_entries g).
Proof.
  induction g as [|[k' files] g IH]; [reflexivity|].
  cbn [append_entry]. destruct (String.eqb k' k); cbn [total_entries].
  - rewrite length_app. simpl. lia.
  - rewrite IH. lia.
Qed.

Lemma add_key_nodup (keys : list string) (k : string) :
  NoDup keys -> NoDup (add_key keys k).
Proof.
  intros Hnd. unfold add_key. destruct (existsb (String.eqb k) keys) eqn:E; [exact Hnd|].
  apply NoDup_app; [exact Hnd | repeat constructor; intros [] |].
  intros x Hx [Heq|[]]. subst x.
  assert (Hin : existsb (String.eqb k) keys = true)
    by (apply existsb_exists; exists k; split; [exact Hx | apply String.eqb_refl]).
  congruence.
Qed.

(** Every file that is not excluded gets exactly one sidebar entry, and
    no directory name heads two groups. *)
Theorem group_files_one_entry_per_file (self : WikiSync) (files : list Path) :
  forall g0 g,
    group_files self g0 files = Ok g ->
    total_entries g = (total_entries g0 + List.length (kept self files))%nat
    /\ (NoDup (map fst g0) -> NoDup (map fst g)).
Proof.
  induction files as [|f files IH]; intros g0 g H; cbn [group_files] in H.
  - injection H as <-. cbn. split; [lia | trivial].
  - destruct (group_file self g0 f) as [g1|e] eqn:Hf; [|discriminate H].
    destruct (IH g1 g H) as [Htotal Hnodup].
    assert (Hkeys := group_file_keys self f g0 g1 Hf).
    unfold kept. cbn [filter]. fold (kept self files).
    unfold group_file in Hf. unfold is_kept in *.
    destruct (should_exclude self f) as [[|]|e]; try discriminate Hf.
    + injection Hf as <-. split; [exact Htotal | exact Hnodup].
    + destruct (PyPath.relative_to f (docs_dir self)) as [rel_path|e];
        [|discriminate Hf].
      injection Hf as <-. split.
      * rewrite Htotal, append_entry_total. cbn [List.length]. lia.
      * intros Hnd. apply Hnodup. rewrite Hkeys. now apply add_key_nodup.
Qed.

Lemma group_files_one_entry_per_file_witness :
  let self := init (config_excluding ["drafts/*"] None) false in
  let files := [mkPath "" ["docs"; "a"; "x.md"]; mkPath "" ["docs"; "b.md"];
                mkPath "" ["docs"; "drafts"; "d.md"]; mkPath "" ["docs"; "a"; "y.md"]] in
  let g := [("a", [("X", "a/x"); ("Y", "a/y")]); ("root", [("B", "b")])] in
  total_entries g = (0 + List.length (kept self files))%nat
  /\ (NoDup (@nil string) -> NoDup (map fst g)).
Proof.
  intros self files g.
  exact (group_files_one_entry_per_file self files [] g eq_refl).
Defined.

(** ** HomePageBuilder *)

(** The home page is the rewritten source and nothing else: no header is
    put on it, whatever the header settings.  The configured source is
    taken when it exists, whether or not there is a README; without
    either, nothing is read or written and the answer is False. *)
Theorem create_home_page_content (self : WikiSync) (w : World) :
  let home := PyPath.joinpath (docs_dir self)
                (get (homePageSource (mapping_config self)) "intro.md") in
  let readme := PyPath.joinpath (PyPath.parent (docs_dir self)) "README.md" in
  (exists_ w home = true -> home_source_file self w = Some home)
  /\ (exists_ w home = false -> exists_ w readme = true ->
      home_source_file self w = Some readme)
  /\ (exists_ w home = false -> exists_ w readme = false ->
      create_home_page self w
      = ([Log WARNING "No source file found for Home.md"], Ok false))
  /\ (forall source_file text,
        dry_run self = false ->
        home_source_file self w = Some source_file ->
        read_ w source_file = Ok text ->
        exists rest,
          trace (create_home_page self w)
          = Log INFO ("Creating Home.md from " ++ PyPath.name source_file)
            :: ReadText source_file
            :: WriteText (PyPath.joinpath (wiki_dir self) "Home.md")
                 (convert_links self text)
            :: rest).
Proof.
  intros home readme. unfold create_home_page, home_source_file.
  fold home. fold readme.
  split; [|split; [|split]].
  - now intros ->.
  - now intros -> ->.
  - now intros -> ->.
  - intros source_file text Hdry Hsrc Hread. rewrite Hsrc, Hdry.
    unfold read_text. simpl. rewrite Hread. simpl.
    destruct (write_ w _ _); simpl; eexists; reflexivity.
Qed.

Lemma create_home_page_content_witness :
  let self := init get_default_config false in
  let w := tree_world docs [(["intro.md"], "[g](./g.md)")]
             [(mkPath "" ["README.md"], "readme")] in
  home_source_file self w = Some (mkPath "" ["docs"; "intro.md"])
  /\ exists rest,
       trace (create_home_page self w)
       = Log INFO "Creating Home.md from intro.md"
         :: ReadText (mkPath "" ["docs"; "intro.md"])
         :: WriteText (mkPath "" ["wiki-temp"; "Home.md"]) "[g](g)"
         :: rest.
Proof.
  intros self w.
  destruct (create_home_page_content self w) as (H1 & _ & _ & H4).
  split.
  - exact (H1 eq_refl).
  - exact (H4 (mkPath "" ["docs"; "intro.md"]) "[g](./g.md)" eq_refl eq_refl eq_refl).
Defined.

(** ** Cleaning the wiki directory *)

Lemma bind_forallb {A B : Type} (P : event -> bool) (m : M A) (f : A -> M B) :
  forallb P (trace m) = true ->
  (forall a, forallb P (trace (f a)) = true) ->
  forallb P (trace (bind m f)) = true.
Proof.
  destruct m as [t [a|e]]; simpl; intros Hm Hf; [|exact Hm].
  specialize (Hf a). destruct (f a) as [t' r]. simpl in *.
  now rewrite forallb_app, Hm, Hf.
Qed.

Lemma clean_items_spares_git (w : World) (items : list Path) :
  forallb removes_other_than_git (trace (clean_items w items)) = true.
Proof.
  induction items as [|item items IH]; [reflexivity|].
  cbn [clean_items]. apply bind_forallb; [|intros _; exact IH].
  destruct (negb (String.eqb (PyPath.name item) ".git")) eqn:E; [|reflexivity].
  unfold rmtree, unlink.
  destruct (is_dir w item); (apply bind_forallb; [|reflexivity]); simpl; now rewrite E.
Qed.

Lemma clean_items_all (w : World) (items : list Path) :
  (forall item, In item items -> rmtree_ w item = Ok tt /\ unlink_ w item = Ok tt) ->
  clean_items w items = (map (removal w) (cleaned items), Ok tt).
Proof.
  induction items as [|item items IH]; intros Hok; [reflexivity|].
  cbn [clean_items cleaned filter].
  destruct (Hok item (or_introl eq_refl)) as [Hrm Hun].
  rewrite (IH (fun i Hi => Hok i (or_intror Hi))). unfold cleaned.
  destruct (negb (String.eqb (PyPath.name item) ".git")); [|reflexivity].
  unfold rmtree, unlink.
  destruct (is_dir w item) eqn:Ed; simpl; [rewrite Hrm | rewrite Hun]; simpl;
    change (removal w item) with (if is_dir w item then Rmtree item else Unlink item);
    rewrite Ed; reflexivity.
Qed.

(** The cleaning step never removes [.git]: besides its log record it
    only removes entries of the wiki directory with another name.  When
    no removal fails it removes each of them, once, in the order of the
    listing: directories with [rmtree], the rest with [unlink]. *)
Theorem clean_wiki_spares_git (self : WikiSync) (w : World) :
  forallb (fun e => is_log e || removes_other_than_git e) (trace (clean_wiki self w)) = true
  /\ (forall items,
        dry_run self = false ->
        get (cleanBeforeSync (sync (config self))) false = true ->
        iterdir_ w (wiki_dir self) = Ok items ->
        (forall item, In item items -> rmtree_ w item = Ok tt /\ unlink_ w item = Ok tt) ->
        clean_wiki self w
        = (Log INFO "Cleaning wiki directory..." :: map (removal w) (cleaned items), Ok tt)).
Proof.
  split.
  - unfold clean_wiki. destruct (get _ false); [|reflexivity].
    destruct (dry_run self); [reflexivity|].
    apply bind_forallb; [reflexivity | intros _].
    apply bind_forallb; [reflexivity | intros items].
    assert (H := clean_items_spares_git w items).
    rewrite forallb_forall in *. intros e He. now rewrite (H e He), Bool.orb_true_r.
  - intros items Hdry Hclean Hiter Hok. unfold clean_wiki.
    rewrite Hclean, Hdry. simpl. rewrite Hiter. simpl.
    now rewrite (clean_items_all w items Hok).
Qed.

Lemma clean_wiki_spares_git_witness :
  let self := init (config_with_headers None) false in
  let git := mkPath "" ["wiki-temp"; ".git"] in
  let old := mkPath "" ["wiki-temp"; "Old.md"] in
  let w := with_git (tree_world docs [] []) [] [git; old] (fun _ => Ok (0%Z, "", "")) in
  clean_wiki self w = ([Log INFO "Cleaning wiki directory..."; Unlink old], Ok tt).
Proof.
  intros self git old w.
  apply (proj2 (clean_wiki_spares_git self w) [git; old]); try reflexivity.
  intros item _. split; reflexivity.
Defined.

(** ** The version-control collaborator *)

Lemma setup_wiki_repo_returns (self : WikiSync) (w : World) :
  exists b, value (setup_wiki_repo self w) = Ok b.
Proof.
  unfold setup_wiki_repo. destruct (dry_run self); [simpl; eauto|].
  unfold subprocess_run, rmtree. simpl.
  destruct (exists_ w (wiki_dir self) && exists_ w _); simpl.
  - destruct (run_ w _ _) as [[[rc out] err]|e]; simpl; [|eauto].
    destruct (negb (rc =? 0)%Z); simpl; eauto.
  - destruct (exists_ w (wiki_dir self)); simpl.
    + destruct (rmtree_ w _) as [[]|e]; simpl; [|eauto].
      destruct (run_ w _ _) as [[[rc out] err]|e]; simpl; [|eauto].
      destruct (negb (rc =? 0)%Z); simpl; eauto.
    + destruct (run_ w _ _) as [[[rc out] err]|e]; simpl; [|eauto].
      destruct (negb (rc =? 0)%Z); simpl; eauto.
Qed.

(** [setup_wiki_repo] lets no exception out.  An existing clone is
    updated with one [git pull] and nothing is removed; the answer is
    True exactly when git returns zero.  A directory that is not a clone
    is removed first, and when that removal fails git is not run. *)
Theorem setup_wiki_repo_updates_or_clones (self : WikiSync) (w : World) :
  (exists b, value (setup_wiki_repo self w) = Ok b)
  /\ (forall rc out err,
        dry_run self = false ->
        exists_ w (wiki_dir self) = true ->
        exists_ w (PyPath.joinpath (wiki_dir self) ".git") = true ->
        run_ w ["git"; "pull"; "origin"] (Some (wiki_dir self)) = Ok (rc, out, err) ->
        value (setup_wiki_repo self w) = Ok (rc =? 0)%Z
        /\ filter is_write (trace (setup_wiki_repo self w)) = []
        /\ filter is_subprocess (trace (setup_wiki_repo self w))
           = [Subprocess ["git"; "pull"; "origin"] (Some (wiki_dir self))])
  /\ (forall e,
        dry_run self = false ->
        exists_ w (wiki_dir self) = true ->
        exists_ w (PyPath.joinpath (wiki_dir self) ".git") = false ->
        rmtree_ w (wiki_dir self) = Raise e ->
        setup_wiki_repo self w
        = ([Log INFO ("Setting up wiki repository from https://github.com/"
                      ++ owner (repository (config self)) ++ "/"
                      ++ name (repository (config self)) ++ ".wiki.git");
            Log INFO "Cloning wiki repository...";
            Rmtree (wiki_dir self);
            Log ERROR ("Error setting up wiki repository: " ++ exn_str e)],
           Ok false)).
Proof.
  split; [apply setup_wiki_repo_returns | split].
  - intros rc out err Hdry Hdir Hgit Hrun. unfold setup_wiki_repo, subprocess_run.
    rewrite Hdry, Hdir, Hgit. simpl. rewrite Hrun. simpl.
    destruct (rc =? 0)%Z; simpl; repeat split; reflexivity.
  - intros e Hdry Hdir Hgit Hrm. unfold setup_wiki_repo, rmtree.
    rewrite Hdry, Hdir, Hgit. simpl. rewrite Hrm. reflexivity.
Qed.

Lemma setup_wiki_repo_updates_or_clones_witness :
  let self := init get_default_config false in
  let w := with_git (tree_world docs [] [])
             [mkPath "" ["wiki-temp"]; mkPath "" ["wiki-temp"; ".git"]] []
             (fun _ => Ok (1%Z, "", "fatal: no remote")) in
  value (setup_wiki_repo self w) = Ok false
  /\ filter is_write (trace (setup_wiki_repo self w)) = []
  /\ filter is_subprocess (trace (setup_wiki_repo self w))
     = [Subprocess ["git"; "pull"; "origin"] (Some (mkPath "" ["wiki-temp"]))].
Proof.
  intros self w.
  exact (proj1 (proj2 (setup_wiki_repo_updates_or_clones self w))
           1%Z "" "fatal: no remote" eq_refl eq_refl eq_refl eq_refl).
Defined.

Lemma push_changes_returns (self : WikiSync) (w : World) :
  exists b, value (push_changes self w) = Ok b.
Proof.
  unfold push_changes. destruct (dry_run self); [simpl; eauto|].
  unfold subprocess_run. simpl.
  destruct (run_ w _ _) as [[[rc1 o1] e1]|x]; simpl; [|destruct x; simpl; eauto].
  destruct (negb (rc1 =? 0)%Z); simpl; [eauto|].
  destruct (run_ w _ _) as [[[rc2 o2] e2]|x]; simpl; [|destruct x; simpl; eauto].
  destruct (negb (rc2 =? 0)%Z); simpl; [eauto|].
  destruct (run_ w _ _) as [[[rc3 o3] e3]|x]; simpl; [|destruct x; simpl; eauto].
  destruct (PyStr.all_space o3); simpl; [eauto|].
  destruct (run_ w _ _) as [[[rc4 o4] e4]|x]; simpl; [|destruct x; simpl; eauto].
  destruct (negb (rc4 =? 0)%Z); simpl; [eauto|].
  destruct (run_ w _ _) as [[[rc5 o5] e5]|x]; simpl; [|destruct x; simpl; eauto].
  destruct (negb (rc5 =? 0)%Z); simpl; [eauto|].
  destruct (run_ w _ _) as [[[rc6 o6] e6]|x]; simpl; [|destruct x; simpl; eauto].
  destruct (negb (rc6 =? 0)%Z); simpl; eauto.
Qed.

(** [push_changes] lets no exception out.  When [git status] prints
    nothing but white space there is nothing to push: no add, commit or
    push is run and the answer is True, whatever [git status] returned.
    When setting the author name fails, nothing else is run and the
    answer is False. *)
Theorem push_changes_nothing_to_push (self : WikiSync) (w : World) :
  let cwd := Some (wiki_dir self) in
  (exists b, value (push_changes self w) = Ok b)
  /\ (forall o1 e1 o2 e2 rc out err,
        dry_run self = false ->
        run_ w (git_user_name self) cwd = Ok (0%Z, o1, e1) ->
        run_ w (git_user_email self) cwd = Ok (0%Z, o2, e2) ->
        run_ w git_status cwd = Ok (rc, out, err) ->
        PyStr.all_space out = true ->
        push_changes self w
        = ([Subprocess (git_user_name self) cwd;
            Subprocess (git_user_email self) cwd;
            Subprocess git_status cwd;
            Log INFO "No changes to push"],
           Ok true))
  /\ (forall rc out err,
        dry_run self = false ->
        run_ w (git_user_name self) cwd = Ok (rc, out, err) ->
        rc <> 0%Z ->
        push_changes self w
        = ([Subprocess (git_user_name self) cwd;
            Log ERROR ("Git operation failed: "
                       ++ exn_str (CalledProcessError (git_user_name self) rc))],
           Ok false)).
Proof.
  intros cwd. split; [apply push_changes_returns | split].
  - intros o1 e1 o2 e2 rc out err Hdry H1 H2 H3 Hblank.
    unfold push_changes, subprocess_run. fold cwd.
    unfold git_user_name, git_user_email, git_status in *.
    rewrite Hdry. simpl. rewrite H1. simpl. rewrite H2. simpl. rewrite H3. simpl.
    rewrite Hblank. reflexivity.
  - intros rc out err Hdry H1 Hrc.
    unfold push_changes, subprocess_run. fold cwd.
    unfold git_user_name in *.
    rewrite Hdry. simpl. rewrite H1. simpl.
    apply Z.eqb_neq in Hrc. rewrite Hrc. reflexivity.
Qed.

Lemma push_changes_nothing_to_push_witness :
  let self := init get_default_config false in
  let w := with_git (tree_world docs [] []) [] []
             (fun args => match args with
                          | ["git"; "status"; "--porcelain"] =>
                              Ok (128%Z, String "010" "", "fatal: not a git repository")
                          | _ => Ok (0%Z, "", "")
                          end) in
  value (push_changes self w) = Ok true
  /\ filter is_subprocess (trace (push_changes self w))
     = [Subprocess (git_user_name self) (Some (wiki_dir self));
        Subprocess (git_user_email self) (Some (wiki_dir self));
        Subprocess git_status (Some (wiki_dir self))].
Proof.
  intros self w.
  assert (H := proj1 (proj2 (push_changes_nothing_to_push self w))
                 "" "" "" "" 128%Z (String "010" "") "fatal: not a git repository"
                 eq_refl eq_refl eq_refl eq_refl eq_refl).
  split.
  - exact (f_equal value H).
  - exact (f_equal (fun m => filter is_subprocess (trace m)) H).
Defined.

(** With changes to publish, [push_changes] stages everything, commits
    with the configured message followed by the time of the run, and
    pushes, in this order; its answer is True exactly when the push
    returns zero.  When the commit fails nothing is pushed and the
    answer is False. *)
Theorem push_changes_commits_then_pushes (self : WikiSync) (w : World) :
  let cwd := Some (wiki_dir self) in
  forall o1 e1 o2 e2 rc3 out e3,
    dry_run self = false ->
    run_ w (git_user_name self) cwd = Ok (0%Z, o1, e1) ->
    run_ w (git_user_email self) cwd = Ok (0%Z, o2, e2) ->
    run_ w git_status cwd = Ok (rc3, out, e3) ->
    PyStr.all_space out = false ->
    (forall o4 e4 o5 e5 rc out6 err,
        run_ w git_add cwd = Ok (0%Z, o4, e4) ->
        run_ w (git_commit self w) cwd = Ok (0%Z, o5, e5) ->
        run_ w git_push cwd = Ok (rc, out6, err) ->
        value (push_changes self w) = Ok (rc =? 0)%Z
        /\ filter is_subprocess (trace (push_changes self w))
           = [Subprocess (git_user_name self) cwd;
              Subprocess (git_user_email self) cwd;
              Subprocess git_status cwd;
              Subprocess git_add cwd;
              Subprocess (git_commit self w) cwd;
              Subprocess git_push cwd])
    /\ (forall o4 e4 rc o5 e5,
          run_ w git_add cwd = Ok (0%Z, o4, e4) ->
          run_ w (git_commit self w) cwd = Ok (rc, o5, e5) ->
          rc <> 0%Z ->
          value (push_changes self w) = Ok false
          /\ filter is_subprocess (trace (push_changes self w))
             = [Subprocess (git_user_name self) cwd;
                Subprocess (git_user_email self) cwd;
                Subprocess git_status cwd;
                Subprocess git_add cwd;
                Subprocess (git_commit self w) cwd]).
Proof.
  intros cwd o1 e1 o2 e2 rc3 out e3 Hdry H1 H2 H3 Hout.
  unfold git_user_name, git_user_email, git_status, git_add, git_commit, git_push in *.
  split.
  - intros o4 e4 o5 e5 rc out6 err H4 H5 H6. simpl in H5.
    unfold push_changes, subprocess_run. fold cwd.
    rewrite Hdry. simpl. rewrite H1. simpl. rewrite H2. simpl. rewrite H3. simpl.
    rewrite Hout. simpl. rewrite H4. simpl. rewrite H5. simpl. rewrite H6. simpl.
    destruct (rc =? 0)%Z; simpl; split; reflexivity.
  - intros o4 e4 rc o5 e5 H4 H5 Hrc. simpl in H5.
    unfold push_changes, subprocess_run. fold cwd.
    rewrite Hdry. simpl. rewrite H1. simpl. rewrite H2. simpl. rewrite H3. simpl.
    rewrite Hout. simpl. rewrite H4. simpl. rewrite H5. simpl.
    apply Z.eqb_neq in Hrc. rewrite Hrc. simpl. split; reflexivity.
Qed.

Lemma push_changes_commits_then_pushes_witness :
  let self := init get_default_config false in
  let w := with_git (tree_world docs [] []) [] []
             (fun args => match args with
                          | ["git"; "status"; "--porcelain"] => Ok (0%Z, " M Home.md", "")
                          | ["git"; "push"; "origin"] => Ok (1%Z, "", "rejected")
                          | _ => Ok (0%Z, "", "")
                          end) in
  value (push_changes self w) = Ok false
  /\ In (Subprocess ["git"; "commit"; "-m"; "Sync documentation - 2024-01-01 00:00:00"]
           (Some (mkPath "" ["wiki-temp"])))
        (filter is_subprocess (trace (push_changes self w))).
Proof.
  intros self w.
  destruct (proj1 (push_changes_commits_then_pushes self w "" "" "" "" 0%Z " M Home.md" ""
                     eq_refl eq_refl eq_refl eq_refl eq_refl)
              "" "" "" "" 1%Z "" "rejected" eq_refl eq_refl eq_refl) as [Hv Ht].
  split; [exact Hv|]. rewrite Ht. simpl. tauto.
Defined.

(** ** [WikiSync.run] *)

Lemma run_unfold (self : WikiSync) (w : World) :
  run self w
  = (let (t1, r1) := setup_wiki_repo self w in
     match r1 with
     | Raise e => ((run_header self ++ t1)%list, Raise e)
     | Ok false => ((run_header self ++ t1)%list, Ok false)
     | Ok true =>
         let (t2, r2) := sync_docs self w in
         match r2 with
         | Raise e => ((run_header self ++ t1 ++ t2)%list, Raise e)
         | Ok false => ((run_header self ++ t1 ++ t2)%list, Ok false)
         | Ok true =>
             let (t3, r3) := push_changes self w in
             match r3 with
             | Raise e => ((run_header self ++ t1 ++ t2 ++ t3)%list, Raise e)
             | Ok false => ((run_header self ++ t1 ++ t2 ++ t3)%list, Ok false)
             | Ok true =>
                 ((run_header self ++ t1 ++ t2 ++ t3
                   ++ [Log INFO "Wiki synchronization complete!"])%list, Ok true)
             end
         end
     end).
Proof.
  unfold run, run_header.
  destruct (setup_wiki_repo self w) as [t1 [[|]|e1]];
    destruct (sync_docs self w) as [t2 [[|]|e2]];
    destruct (push_changes self w) as [t3 [[|]|e3]];
    destruct (dry_run self); cbn; rewrite ?app_nil_r; reflexivity.
Qed.

(** The three phases of [run] are chained: the documentation is synced
    only after the wiki repository is set up, and changes are pushed
    only after a sync that answered True.  The run answers True only
    when the three phases did.  An exception that leaves [sync_docs] is
    not caught: it leaves [run] too, and nothing is pushed. *)
Theorem run_phases (self : WikiSync) (w : World) :
  (value (run self w) = Ok true ->
   value (setup_wiki_repo self w) = Ok true
   /\ value (sync_docs self w) = Ok true
   /\ value (push_changes self w) = Ok true)
  /\ (value (setup_wiki_repo self w) = Ok false ->
      run self w = ((run_header self ++ trace (setup_wiki_repo self w))%list, Ok false))
  /\ (value (setup_wiki_repo self w) = Ok true ->
      value (sync_docs self w) = Ok false ->
      run self w
      = ((run_header self ++ trace (setup_wiki_repo self w)
          ++ trace (sync_docs self w))%list, Ok false))
  /\ (forall e,
        value (setup_wiki_repo self w) = Ok true ->
        value (sync_docs self w) = Raise e ->
        run self w
        = ((run_header self ++ trace (setup_wiki_repo self w)
            ++ trace (sync_docs self w))%list, Raise e)).
Proof.
  rewrite run_unfold.
  destruct (setup_wiki_repo self w) as [t1 [[|]|e1]];
    destruct (sync_docs self w) as [t2 [[|]|e2]];
    destruct (push_changes self w) as [t3 [[|]|e3]];
    cbn; repeat split; intros; try discriminate; try reflexivity; congruence.
Qed.

Lemma run_phases_witness :
  let self := init (config_excluding [""] None) false in
  let w := tree_world docs [(["a.md"], "text")] [] in
  value (run self w) = Raise (ValueError "empty pattern")
  /\ filter is_subprocess (trace (run self w))
     = [Subprocess ["git"; "clone"; "https://github.com/kufa-dev-team/url_shortener.wiki.git";
                    "wiki-temp"] None].
Proof.
  intros self w.
  assert (H := proj2 (proj2 (proj2 (run_phases self w)))
                 (ValueError "empty pattern") eq_refl eq_refl).
  split.
  - exact (f_equal value H).
  - exact (f_equal (fun m => filter is_subprocess (trace m)) H).
Defined.

(** ** What a dry run answers *)



(** ** ExclusionFilter: patterns of one component *)

Lemma skipn_last (l : list string) :
  l <> [] -> skipn (List.length l - 1) l = [last l EmptyString].
Proof.
  induction l as [|x l IH]; [contradiction | intros _].
  destruct l as [|y r]; [reflexivity|].
  specialize (IH ltac:(discriminate)). cbn [List.length] in *.
  replace (S (S (List.length r)) - 1)%nat with (S (List.length r)) by lia.
  replace (S (List.length r) - 1)%nat with (List.length r) in IH by lia.
  cbn [skipn]. exact IH.
Qed.

Lemma suffix_match_single (l : list string) (pat : string) :
  l <> [] ->
  suffix_match l [pat] = Fnmatch.fnmatchcase (last l EmptyString) pat.
Proof.
  intros Hne. unfold suffix_match. cbn [List.length].
  rewrite (skipn_last l Hne). cbn [all2].
  destruct l as [|x l]; [contradiction|]. cbn [List.length Nat.leb].
  now rewrite Bool.andb_true_r.
Qed.

Lemma parts_last (p : Path) :
  tail p <> [] -> last (PyPath.parts p) EmptyString = PyPath.name p /\ PyPath.parts p <> [].
Proof.
  intros Hne. unfold PyPath.parts, PyPath.name.
  destruct (root p); [now split|].
  split; [|discriminate].
  destruct (tail p); [contradiction | reflexivity].
Qed.

(** Exclusion patterns of one component look at the file name only: the
    file is excluded exactly when its name matches one of them, in
    whatever directory it lies. *)
Theorem should_exclude_by_name (self : WikiSync) (file_path : Path)
        (patterns : list string) :
  get (excludePatterns (sync (config self))) [] = patterns ->
  Forall one_component patterns ->
  tail file_path <> [] ->
  should_exclude self file_path
  = Ok (existsb (fun pattern => Fnmatch.fnmatchcase (PyPath.name file_path)
                                  (component pattern)) patterns).
Proof.
  intros Hpats Hone Hne. unfold should_exclude. rewrite Hpats. clear Hpats.
  destruct (parts_last file_path Hne) as [Hlast Hparts].
  induction Hone as [|pattern rest [Hroot Hlen] _ IH]; [reflexivity|].
  cbn [any_match existsb].
  destruct (tail (PyPath.parse pattern)) as [|pat [|? ?]] eqn:Et; try discriminate Hlen.
  rewrite (match_relative_pattern file_path pattern Hroot)
    by (rewrite Et; discriminate).
  rewrite Et, (suffix_match_single _ pat Hparts), Hlast.
  unfold component. rewrite Et. cbn [hd].
  destruct (Fnmatch.fnmatchcase (PyPath.name file_path) pat); [reflexivity | exact IH].
Qed.

Lemma should_exclude_by_name_witness :
  let self := init (config_excluding ["*.draft.md"; "README.md"] None) false in
  should_exclude self (mkPath "" ["docs"; "a"; "b"; "README.md"]) = Ok true
  /\ should_exclude self (mkPath "" ["docs"; "x.draft.md"]) = Ok true
  /\ should_exclude self (mkPath "" ["docs"; "README.md"; "notes.md"]) = Ok false.
Proof.
  intros self.
  assert (Hone : Forall one_component ["*.draft.md"; "README.md"])
    by (repeat constructor).
  split; [|split].
  - exact (should_exclude_by_name self (mkPath "" ["docs"; "a"; "b"; "README.md"])
             _ eq_refl Hone ltac:(discriminate)).
  - exact (should_exclude_by_name self (mkPath "" ["docs"; "x.draft.md"])
             _ eq_refl Hone ltac:(discriminate)).
  - exact (should_exclude_by_name self (mkPath "" ["docs"; "README.md"; "notes.md"])
             _ eq_refl Hone ltac:(discriminate)).
Defined.
